(** * Inference-request orchestration of the sign-language detector (app.py)

    A shallow embedding of [src/app.py]: the [ClientApp] class, the routes
    [/warmup], [/predict] and [/live], and the pieces of the Python runtime
    they touch (paths, the file system, exceptions, [print], [os.system]).
    Stateful code is written in a state-and-exception monad over a [World]. *)

From Stdlib Require Import Strings.Byte.
From Stdlib Require Import ZArith NArith List String Ascii Bool Lia.
From Stdlib Require Import Permutation DecimalString.
Import ListNotations.

Local Open Scope string_scope.
Local Open Scope Z_scope.

(** ** Python runtime: exceptions *)

Module Py.

(** The exception classes that can occur in [app.py] and in the calls it
    makes.  All of them derive from [Exception], so [except Exception]
    catches every one of them. *)
Inductive exn_kind : Type :=
| FileNotFoundError
| FileExistsError
| NotADirectoryError
| IsADirectoryError
| RuntimeError
| ValueError
| TypeError
| AttributeError
| BadRequest
| EncodingError
| OtherException.

Record exn : Type := mkExn { kind : exn_kind; str : string }.

Inductive result (A : Type) : Type :=
| Ok (a : A)
| Raise (e : exn).
Arguments Ok {A} a.
Arguments Raise {A} e.

(** [f"{n}"] for an integer [n]. *)
Definition str_of_int (n : Z) : string := NilZero.string_of_int (Z.to_int n).

(** [s.startswith(p)] *)
Definition startswith (s p : string) : bool := String.prefix p s.

(** [s.endswith("/")] *)
Fixpoint endswith_sep (s : string) : bool :=
  match s with
  | EmptyString => false
  | String c EmptyString => Ascii.eqb c "/"
  | String _ r => endswith_sep r
  end.

(** [sep.join(parts)] *)
Definition join (sep : string) (parts : list string) : string :=
  String.concat sep parts.

(** [max(l, key=k)] on a non-empty list whose keys are already computed:
    CPython keeps the current best and replaces it only when a later key is
    strictly greater, so the first maximal element wins. *)
Fixpoint max_from {A : Type} (best : A) (kbest : Z) (l : list (A * Z)) : A :=
  match l with
  | [] => best
  | (x, kx) :: r => if kbest <? kx then max_from x kx r else max_from best kbest r
  end.

Definition max_by_key {A : Type} (l : list (A * Z)) : option A :=
  match l with
  | [] => None
  | (x, kx) :: r => Some (max_from x kx r)
  end.

End Py.
Import Py.

(** ** [os.path] and the file system *)

Module OsPath.

(** [os.path.join(a, b)] (posixpath). *)
Definition join2 (a b : string) : string :=
  if startswith b "/" then b
  else if orb (String.eqb a "") (endswith_sep a) then a ++ b
  else a ++ "/" ++ b.

(** [os.path.join(a, *p)] *)
Definition join (a : string) (p : list string) : string :=
  fold_left join2 p a.

(** [(p[:i], p[i:])] for [i = p.rfind("/") + 1]. *)
Fixpoint cut_at_last_sep (p : string) : string * string :=
  match p with
  | EmptyString => ("", "")
  | String c r =>
      let (h, t) := cut_at_last_sep r in
      if String.eqb h "" then
        if Ascii.eqb c "/" then ("/", t) else ("", String c t)
      else (String c h, t)
  end.

(** [s.rstrip("/")] *)
Fixpoint rstrip_sep (s : string) : string :=
  match s with
  | EmptyString => ""
  | String c r =>
      let r' := rstrip_sep r in
      if String.eqb r' "" && Ascii.eqb c "/" then "" else String c r'
  end.

(** A name without a slash in it. *)
Fixpoint sep_free (s : string) : bool :=
  match s with
  | EmptyString => true
  | String c r => negb (Ascii.eqb c "/") && sep_free r
  end.

(** [os.path.split(p)] (posixpath): the head loses its trailing slashes
    unless it consists of slashes only. *)
Definition split (p : string) : string * string :=
  let (head, tail) := cut_at_last_sep p in
  (if String.eqb (rstrip_sep head) "" then head else rstrip_sep head, tail).

End OsPath.

Module Fs.

(** A node of the file system, with its modification time (in ticks of the
    file system's timestamp resolution).  A directory lists its entries in
    the order [os.listdir] returns them. *)
Inductive node : Type :=
| File (content : list Byte.byte) (mtime : Z)
| Dir (entries : list string) (mtime : Z).

(** Paths are the keys; [now] is the file system's clock. *)
Record t : Type := mk { nodes : list (string * node); now : Z }.

Fixpoint assoc {V : Type} (k : string) (l : list (string * V)) : option V :=
  match l with
  | [] => None
  | (k', v) :: r => if String.eqb k k' then Some v else assoc k r
  end.

Definition lookup (fs : t) (p : string) : option node := assoc p (nodes fs).

(** [os.path.exists(p)] *)
Definition exists_ (fs : t) (p : string) : bool :=
  match lookup fs p with Some _ => true | None => false end.

(** [os.path.isdir(p)] *)
Definition isdir (fs : t) (p : string) : bool :=
  match lookup fs p with Some (Dir _ _) => true | _ => false end.

(** [str(e)] of the [OSError] that a system call on [p] raises: errno,
    message and the path as [repr] shows it (in single quotes, for a path
    without quotes, backslashes and control characters). *)
Definition oserror (k : exn_kind) (errno strerror p : string) : exn :=
  mkExn k ("[Errno " ++ errno ++ "] " ++ strerror ++ ": '" ++ p ++ "'").

Definition ENOENT (p : string) : exn :=
  oserror FileNotFoundError "2" "No such file or directory" p.
Definition EEXIST (p : string) : exn :=
  oserror FileExistsError "17" "File exists" p.
Definition ENOTDIR (p : string) : exn :=
  oserror NotADirectoryError "20" "Not a directory" p.
Definition EISDIR (p : string) : exn :=
  oserror IsADirectoryError "21" "Is a directory" p.

(** [os.listdir(p)] *)
Definition listdir (fs : t) (p : string) : result (list string) :=
  match lookup fs p with
  | Some (Dir es _) => Ok es
  | Some (File _ _) => Raise (ENOTDIR p)
  | None => Raise (ENOENT p)
  end.

(** [os.path.getmtime(p)] *)
Definition getmtime (fs : t) (p : string) : result Z :=
  match lookup fs p with
  | Some (Dir _ m) | Some (File _ m) => Ok m
  | None => Raise (ENOENT p)
  end.

(** [open(p, "rb").read()] *)
Definition read (fs : t) (p : string) : result (list Byte.byte) :=
  match lookup fs p with
  | Some (File c _) => Ok c
  | Some (Dir _ _) => Raise (EISDIR p)
  | None => Raise (ENOENT p)
  end.

(** [open(p, "wb").write(c)] *)
Definition write (fs : t) (p : string) (c : list Byte.byte) : result t :=
  match lookup fs p with
  | Some (Dir _ _) => Raise (EISDIR p)
  | _ => Ok (mk ((p, File c (now fs)) :: nodes fs) (now fs))
  end.

(** [os.mkdir(p)]: [p] must not exist and its parent must be a directory;
    the new directory is entered in the parent's listing, which changes the
    parent's modification time. *)
Definition mkdir (fs : t) (p : string) : result t :=
  match lookup fs p with
  | Some _ => Raise (EEXIST p)
  | None =>
      let (head, tail) := OsPath.split p in
      let parent := if String.eqb head "" then "." else head in
      match lookup fs parent with
      | Some (Dir es _) =>
          Ok (mk ((p, Dir [] (now fs))
                    :: (parent, Dir (es ++ [tail]) (now fs)) :: nodes fs) (now fs))
      | Some (File _ _) => Raise (ENOTDIR p)
      | None => Raise (ENOENT p)
      end
  end.

(** The last step of [os.makedirs(name, exist_ok=True)]: [mkdir(name)],
    whose [OSError] is forgiven when [name] is a directory. *)
Definition mkdir_exist_ok (fs : t) (name : string) : result t :=
  match mkdir fs name with
  | Ok fs' => Ok fs'
  | Raise e => if isdir fs name then Ok fs else Raise e
  end.

(** The recursion of [os.makedirs(name, exist_ok=True)] as CPython writes it:
    a missing parent is made first (a [FileExistsError] from that being
    passed over, and nothing more being done when the last component is
    "."), then [mkdir(name)].  [None] when the fuel runs out. *)
Fixpoint makedirs_rec (fuel : nat) (fs : t) (name : string) : option (result t) :=
  match fuel with
  | O => None
  | S fuel' =>
      let (head0, tail0) := OsPath.split name in
      let (head, tail) :=
        if String.eqb tail0 "" then OsPath.split head0 else (head0, tail0) in
      if negb (String.eqb head "") && negb (String.eqb tail "")
         && negb (exists_ fs head)
      then
        match makedirs_rec fuel' fs head with
        | None => None
        | Some made =>
            let parents :=
              match made with
              | Ok fs' => Ok fs'
              | Raise e =>
                  match kind e with
                  | FileExistsError => Ok fs
                  | _ => Raise e
                  end
              end in
            match parents with
            | Raise e => Some (Raise e)
            | Ok fs1 =>
                if String.eqb tail "." then Some (Ok fs1)
                else Some (mkdir_exist_ok fs1 name)
            end
        end
      else Some (mkdir_exist_ok fs name)
  end.

(** [os.makedirs(p, exist_ok=True)].  A directory that exists has its
    parents, so for it CPython's recursion comes down to the [mkdir] that
    fails and is forgiven: nothing happens.  The head shrinks at every step,
    so the length of [p] is fuel enough. *)
Definition makedirs (fs : t) (p : string) : result t :=
  if isdir fs p then Ok fs
  else
    match makedirs_rec (S (String.length p)) fs p with
    | Some r => r
    | None => Raise (mkExn OtherException "maximum recursion depth exceeded")
    end.

End Fs.

(** ** Flask: request and response values *)

Module Flask.

(** A parsed JSON value; an object is the Python [dict] it parses to, as an
    association list. *)
#[local] Unset Elimination Schemes.
Inductive json : Type :=
| JNull
| JBool (b : bool)
| JNum (n : Z)
| JStr (s : string)
| JArr (items : list json)
| JObj (fields : list (string * json)).
#[local] Set Elimination Schemes.

(** Python truthiness of a parsed JSON value ([if not image]). *)
Definition truthy (j : json) : bool :=
  match j with
  | JNull => false
  | JBool b => b
  | JNum n => negb (n =? 0)
  | JStr s => negb (String.eqb s "")
  | JArr l => match l with [] => false | _ => true end
  | JObj l => match l with [] => false | _ => true end
  end.

(** The inbound request: [is_json] tells whether the content type announces
    JSON; [body] is the parsed body, [None] when it does not parse. *)
Record Request : Type := mkRequest { is_json : bool; body : option json }.

(** [request.json]: parsing failure raises [BadRequest]. *)
Definition request_json (r : Request) : result json :=
  match body r with
  | Some j => Ok j
  | None => Raise (mkExn BadRequest "400 Bad Request: Failed to decode JSON object")
  end.

(** [j.get(k)]: [dict.get] returns [None] for a missing key; other JSON
    values have no [get]. *)
Definition get (j : json) (k : string) : result json :=
  match j with
  | JObj fields =>
      match Fs.assoc k fields with Some v => Ok v | None => Ok JNull end
  | _ => Raise (mkExn AttributeError "object has no attribute 'get'")
  end.

Inductive payload : Type :=
| Json (j : json)   (* jsonify(...) *)
| Text (s : string) (* a plain string returned by the view *).

Record Response : Type := mkResponse { content : payload; status : Z }.

(** [jsonify({k: v})] with the default status 200, and [jsonify(...), code]. *)
Definition jsonify (k v : string) : Response :=
  mkResponse (Json (JObj [(k, JStr v)])) 200.

Definition with_status (r : Response) (code : Z) : Response :=
  mkResponse (content r) code.

End Flask.
Import Flask.

(** ** The world and the monad of effects *)

(** What the process does that can be observed from outside. *)
Inductive event : Type :=
| Print (line : string)         (* print(...) *)
| LoadAttempt (path : string)   (* the [try] block of _load_model was entered *)
| OsSystem (command : string)   (* os.system(command): one string, run by the shell *).

Record World : Type := mkWorld { fs : Fs.t; trace : list event }.

Definition M (A : Type) : Type := World -> result A * World.

Definition ret {A : Type} (a : A) : M A := fun w => (Ok a, w).

Definition bind {A B : Type} (m : M A) (k : A -> M B) : M B :=
  fun w => match m w with
           | (Ok a, w') => k a w'
           | (Raise e, w') => (Raise e, w')
           end.

Definition raise {A : Type} (e : exn) : M A := fun w => (Raise e, w).

(** [try: m except Exception as e: h e] *)
Definition try_except {A : Type} (m : M A) (h : exn -> M A) : M A :=
  fun w => match m w with
           | (Ok a, w') => (Ok a, w')
           | (Raise e, w') => h e w'
           end.

Declare Scope py_scope.
Delimit Scope py_scope with py.
Notation "x <- m ;; k" := (bind m (fun x => k))
  (at level 100, m at next level, right associativity) : py_scope.
Notation "m ;; k" := (bind m (fun _ => k))
  (at level 100, right associativity) : py_scope.
Local Open Scope py_scope.

Definition emit (e : event) : M unit :=
  fun w => (Ok tt, mkWorld (fs w) (trace w ++ [e])).

Definition print (line : string) : M unit := emit (Print line).

(** Lift a read of the file system. *)
Definition reading {A : Type} (f : Fs.t -> result A) : M A :=
  fun w => (f (fs w), w).

(** Lift an update of the file system. *)
Definition updating (f : Fs.t -> result Fs.t) : M unit :=
  fun w => match f (fs w) with
           | Ok fs' => (Ok tt, mkWorld fs' (trace w))
           | Raise e => (Raise e, w)
           end.

(** Map a function that may raise over a list, left to right. *)
Fixpoint traverse {A B : Type} (f : A -> result B) (l : list A) : result (list B) :=
  match l with
  | [] => Ok []
  | x :: r =>
      match f x with
      | Raise e => Raise e
      | Ok y => match traverse f r with
                | Raise e => Raise e
                | Ok ys => Ok (y :: ys)
                end
      end
  end.

(** Number of times the loading block of [_load_model] (its [try] block) was
    entered, whether it then returned a model or raised. *)
Definition load_attempts (tr : list event) : nat :=
  List.length (filter (fun e => match e with LoadAttempt _ => true | _ => false end) tr).

(** The shell commands issued, in order. *)
Definition commands (tr : list event) : list string :=
  flat_map (fun e => match e with OsSystem c => [c] | _ => [] end) tr.

(** ** ImageCodec: the text encoding of image bytes *)

Module Base64.

Local Open Scope N_scope.

Definition alphabet : list ascii :=
  list_ascii_of_string
    "ABCDEFGHIJKLMNOPQRSTUVWXYZabcdefghijklmnopqrstuvwxyz0123456789+/".

(** The character of a 6-bit value. *)
Definition char_of (n : N) : ascii := nth (N.to_nat n) alphabet "="%char.

Fixpoint index_of (c : ascii) (l : list ascii) : option nat :=
  match l with
  | [] => None
  | x :: r => if Ascii.eqb c x then Some O
              else match index_of c r with Some i => Some (S i) | None => None end
  end.

(** The 6-bit value of a character of the alphabet. *)
Definition value_of (c : ascii) : option N :=
  match index_of c alphabet with Some i => Some (N.of_nat i) | None => None end.

(** The byte of a number below 256. *)
Definition byte_of (n : N) : byte :=
  match Byte.of_N n with Some b => b | None => Byte.x00 end.

(** Modelled from the spec: the encoder behind [encode(path) -> text]
    ([signLanguage.utils.main_utils] is not part of the sources): standard
    base64 of the bytes, three bytes to four characters, padded with [=]. *)
Fixpoint encode (bs : list byte) : string :=
  match bs with
  | [] => ""
  | [a] =>
      let a := Byte.to_N a in
      String (char_of (a / 4)) (String (char_of ((a mod 4) * 16)) "==")
  | [a; b] =>
      let a := Byte.to_N a in
      let b := Byte.to_N b in
      String (char_of (a / 4))
        (String (char_of ((a mod 4) * 16 + b / 16))
           (String (char_of ((b mod 16) * 4)) "="))
  | a :: b :: c :: r =>
      let a := Byte.to_N a in
      let b := Byte.to_N b in
      let c := Byte.to_N c in
      String (char_of (a / 4))
        (String (char_of ((a mod 4) * 16 + b / 16))
           (String (char_of ((b mod 16) * 4 + c / 64))
              (String (char_of (c mod 64)) (encode r))))
  end.

(** The last group of four characters, where padding may occur. *)
Definition decode_last (c1 c2 c3 c4 : ascii) : option (list byte) :=
  match value_of c1, value_of c2 with
  | Some v1, Some v2 =>
      let b1 := byte_of (v1 * 4 + v2 / 16) in
      if Ascii.eqb c4 "=" then
        if Ascii.eqb c3 "=" then
          if v2 mod 16 =? 0 then Some [b1] else None
        else
          match value_of c3 with
          | Some v3 =>
              if v3 mod 4 =? 0
              then Some [b1; byte_of ((v2 mod 16) * 16 + v3 / 4)]
              else None
          | None => None
          end
      else
        match value_of c3, value_of c4 with
        | Some v3, Some v4 =>
            Some [b1; byte_of ((v2 mod 16) * 16 + v3 / 4);
                  byte_of ((v3 mod 4) * 64 + v4)]
        | _, _ => None
        end
  | _, _ => None
  end.

(** Modelled from the spec: the decoder behind [decode(text) -> bytes], which
    "fails [EncodingError] on malformed input text": [None] on any text that
    is not the base64 encoding of a byte sequence. *)
Fixpoint decode (s : string) : option (list byte) :=
  match s with
  | EmptyString => Some []
  | String c1 (String c2 (String c3 (String c4 r))) =>
      match r with
      | EmptyString => decode_last c1 c2 c3 c4
      | _ =>
          match value_of c1, value_of c2, value_of c3, value_of c4, decode r with
          | Some v1, Some v2, Some v3, Some v4, Some bs =>
              Some (byte_of (v1 * 4 + v2 / 16)
                      :: byte_of ((v2 mod 16) * 16 + v3 / 4)
                      :: byte_of ((v3 mod 4) * 64 + v4) :: bs)
          | _, _, _, _, _ => None
          end
      end
  | _ => None
  end.

End Base64.

(** ** What lies outside [app.py] *)

(** The collaborators of [app.py] that the development takes as given. *)
Record Externals : Type := mkExternals {
  (** the loaded weights object (yolov5's [Model]) *)
  Model : Type;
  (** [os.path.dirname(__file__)] *)
  dirname_file : string;
  (** the whole block
      [with add_safe_globals([Model]): return torch.load(path, ...)]
      of [_load_model]: the model it returns, or the exception that the
      [with] statement or [torch.load] raises *)
  load_block : Fs.t -> string -> result Model;
  (** [os.system(command)]: the status it returns and the file system the
      command leaves behind *)
  os_system : string -> Fs.t -> Z * Fs.t;
  (** the path at which [decodeImage(_, fileName)] stores the bytes *)
  data_file : string -> string
}.

Section Codec.
Context (E : Externals).

(** Modelled from the spec: [decodeImage] of [signLanguage.utils.main_utils],
    which is not part of the sources: "decode(text) -> bytes written to path",
    failing with [EncodingError] on malformed text. *)
Definition decodeImage (image : json) (fileName : string) : M unit :=
  match image with
  | JStr text =>
      match Base64.decode text with
      | Some bytes => updating (fun fs => Fs.write fs (data_file E fileName) bytes)
      | None => raise (mkExn EncodingError "Incorrect padding")
      end
  | _ => raise (mkExn TypeError "argument should be a bytes-like object or ASCII string")
  end.

(** Modelled from the spec: [encodeImageIntoBase64] of
    [signLanguage.utils.main_utils], which is not part of the sources:
    "encode(path) -> text", failing with an I/O error when the file cannot be
    read. *)
Definition encodeImageIntoBase64 (path : string) : M string :=
  bytes <- reading (fun fs => Fs.read fs path) ;;
  ret (Base64.encode bytes).

End Codec.

(** ** [class ClientApp] *)

Module ClientApp.

Record t (E : Externals) : Type := mk {
  base_dir : string;
  filename : string;
  output_dir : string;
  model_path : string;
  model : option (Model E)   (* [None] is Python's [None] *)
}.
Arguments mk {E}.
Arguments base_dir {E}.
Arguments filename {E}.
Arguments output_dir {E}.
Arguments model_path {E}.
Arguments model {E}.

Section Methods.
Context (E : Externals).

(** [_load_model]: "Cache model for faster inference".  The event
    [LoadAttempt] records that the [try] block was entered; the block itself,
    [with add_safe_globals([Model]): return torch.load(...)], is [load_block]. *)
Definition _load_model (self_model_path : string) : M (option (Model E)) :=
  fs0 <- reading (fun fs => Ok fs) ;;
  if negb (Fs.exists_ fs0 self_model_path) then
    raise (mkExn FileNotFoundError ("Model file not found: " ++ self_model_path))
  else
    try_except
      (emit (LoadAttempt self_model_path) ;;
       m <- reading (fun fs => load_block E fs self_model_path) ;;
       ret (Some m))
      (fun e =>
         print ("Failed to load model: " ++ str e) ;;
         ret None).

(** [_ensure_directories]: "Create required directories if they don't exist". *)
Definition _ensure_directories (self : t E) : M unit :=
  updating (fun fs => Fs.makedirs fs (output_dir self)) ;;
  updating (fun fs => Fs.makedirs fs (OsPath.join (base_dir self) ["data"])).

(** [__init__] *)
Definition __init__ : M (t E) :=
  let base_dir := dirname_file E in
  let filename := "inputImage.jpg" in
  let output_dir := OsPath.join base_dir ["yolov5"; "runs"; "detect"] in
  let model_path := OsPath.join base_dir ["yolov5"; "my_model.pt"] in
  model <- _load_model model_path ;;
  let self := mk base_dir filename output_dir model_path model in
  _ensure_directories self ;;
  ret self.

(** The list [yolo_cmd] of [run_yolo_detection]. *)
Definition yolo_cmd (self : t E) (image_path : string) : list string :=
  [ "python";
    OsPath.join (base_dir self) ["yolov5"; "detect.py"];
    "--weights";
    model_path self;
    "--img";
    "416";
    "--conf";
    "0.5";
    "--source";
    image_path;
    "--project";
    output_dir self;
    "--name";
    "exp" ].

(** [run_yolo_detection]: "Run YOLO detection on the given image". *)
Definition run_yolo_detection (self : t E) (image_path : string) : M unit :=
  (* Join the command parts into a single string *)
  let yolo_cmd_str := Py.join " " (yolo_cmd self image_path) in
  (* Execute the command *)
  try_except
    (emit (OsSystem yolo_cmd_str) ;;
     exit_code <- (fun w => let (c, fs') := os_system E yolo_cmd_str (fs w) in
                            (Ok c, mkWorld fs' (trace w))) ;;
     if negb (exit_code =? 0) then
       raise (mkExn RuntimeError
                ("YOLO detection failed with code " ++ str_of_int exit_code))
     else ret tt)
    (fun e => print ("Error running YOLO detection: " ++ str e)).

End Methods.
End ClientApp.

(** ** The routes *)

Section Routes.
Context (E : Externals).

(** [/warmup]: "Pre-load model before first request". *)
Definition warmup : M Response :=
  clApp <- ClientApp.__init__ E ;;
  ret (jsonify "status" "Model loaded").

(** The comprehension of [predictRoute]:
    [[d for d in os.listdir(output_dir)
        if d.startswith("exp") and os.path.isdir(os.path.join(output_dir, d))]] *)
Definition exp_folders (fs : Fs.t) (output_dir : string) : result (list string) :=
  match Fs.listdir fs output_dir with
  | Raise e => Raise e
  | Ok names =>
      Ok (filter (fun d => startswith d "exp"
                           && Fs.isdir fs (OsPath.join output_dir [d])) names)
  end.

(** The key of [latest_exp_folder]:
    [lambda x: os.path.getmtime(os.path.join(output_dir, x))], paired with
    its argument. *)
Definition keyed_by (fs : Fs.t) (output_dir : string) (x : string)
    : result (string * Z) :=
  match Fs.getmtime fs (OsPath.join output_dir [x]) with
  | Ok m => Ok (x, m)
  | Raise e => Raise e
  end.

(** [max(exp_folders, key=lambda x: os.path.getmtime(os.path.join(output_dir, x)))] *)
Definition latest_exp_folder (fs : Fs.t) (output_dir : string)
    (folders : list string) : result string :=
  match traverse (keyed_by fs output_dir) folders with
  | Raise e => Raise e
  | Ok keyed =>
      match max_by_key keyed with
      | Some d => Ok d
      | None => Raise (mkExn ValueError "max() arg is an empty sequence")
      end
  end.

(** [/predict], from "Find latest experiment" to the end of the [try]
    block: the folder is looked up, its [image0.jpg] is encoded and served. *)
Definition predictRoute_latest (clApp : ClientApp.t E) : M Response :=
  (* Find latest experiment *)
  folders <- reading (fun fs => exp_folders fs (ClientApp.output_dir clApp)) ;;
  match folders with
  | [] => ret (with_status (jsonify "error" "No experiment folders found") 500)
  | _ =>
      (* Get the path of the latest predicted image *)
      latest <- reading (fun fs =>
                  latest_exp_folder fs (ClientApp.output_dir clApp) folders) ;;
      let latest_image_path :=
        OsPath.join (ClientApp.output_dir clApp) [latest; "image0.jpg"] in
      exists_image <- reading (fun fs => Ok (Fs.exists_ fs latest_image_path)) ;;
      if negb exists_image then
        ret (with_status (jsonify "error" "Predicted image not found") 500)
      else
        (* Serve the predicted image *)
        reading (fun fs => Fs.read fs latest_image_path) ;;
        encoded_string <- encodeImageIntoBase64 latest_image_path ;;
        ret (jsonify "image" encoded_string)
  end.

(** [/predict], the body of the [try] block. *)
Definition predictRoute_try (clApp : ClientApp.t E) (request : Request) : M Response :=
  if negb (is_json request) then
    ret (with_status (jsonify "error" "Request must be JSON") 400)
  else
    image <- (fun w => (match request_json request with
                        | Ok j => get j "image"
                        | Raise e => Raise e
                        end, w)) ;;
    if negb (truthy image) then
      ret (with_status (jsonify "error" "No image provided") 400)
    else
      decodeImage E image (ClientApp.filename clApp) ;;
      let image_path :=
        OsPath.join (dirname_file E) ["data"; ClientApp.filename clApp] in
      ClientApp.run_yolo_detection E clApp image_path ;;
      predictRoute_latest clApp.

(** [/predict], the [except Exception as e] clause. *)
Definition predictRoute_except (e : exn) : M Response :=
  print (str e) ;;
  ret (with_status (jsonify "error" (str e)) 500).

(** [/predict] *)
Definition predictRoute (request : Request) : M Response :=
  clApp <- ClientApp.__init__ E ;;
  try_except (predictRoute_try clApp request) predictRoute_except.

(** [/live] *)
Definition predictLive : M Response :=
  try_except
    (clApp <- ClientApp.__init__ E ;;
     ClientApp.run_yolo_detection E clApp "0" ;;
     ret (mkResponse (Text "Camera starting!!") 200))
    (fun e =>
       match kind e with
       | ValueError =>
           print (str e) ;;
           ret (mkResponse (Text "Value not found inside  json data") 200)
       | _ =>
           print (str e) ;;
           ret (with_status (jsonify "error" (str e)) 500)
       end).

End Routes.

(** Running a computation: what it returns or raises, and the world it
    leaves. *)
Definition outcome {A : Type} (m : M A) (w : World) : result A := fst (m w).
Definition final {A : Type} (m : M A) (w : World) : World := snd (m w).

(** ** Observations of the world *)

(** [keeps obs m]: running [m] never changes what [obs] sees of the world. *)
Definition keeps {X A : Type} (obs : World -> X) (m : M A) : Prop :=
  forall w, obs (snd (m w)) = obs w.

(** An observation of the trace that printing does not affect. *)
Definition deaf_to_print {X : Type} (obs : World -> X) : Prop :=
  forall w line, obs (mkWorld (fs w) (trace w ++ [Print line])) = obs w.

(** An observation that depends on the trace only. *)
Definition trace_only {X : Type} (obs : World -> X) : Prop :=
  forall w fs', obs (mkWorld fs' (trace w)) = obs w.

(** The three observations used below. *)
Definition see_fs (w : World) : Fs.t := fs w.
Definition see_commands (w : World) : list string := commands (trace w).
Definition see_attempts (w : World) : nat := load_attempts (trace w).

(** ** Names for what the methods compute *)

Section Names.
Context (E : Externals).

(** The paths that [__init__] computes. *)
Definition the_model_path : string :=
  OsPath.join (dirname_file E) ["yolov5"; "my_model.pt"].
Definition the_output_dir : string :=
  OsPath.join (dirname_file E) ["yolov5"; "runs"; "detect"].
Definition the_data_dir : string :=
  OsPath.join (dirname_file E) ["data"].

(** The command line of [run_yolo_detection]. *)
Definition yolo_cmd_str (self : ClientApp.t E) (image_path : string) : string :=
  Py.join " " (ClientApp.yolo_cmd E self image_path).

End Names.

(** ** A concrete installation, for running the model *)

Module Demo.

Definition weights : string := "/app/yolov5/my_model.pt".
Definition out : string := "/app/yolov5/runs/detect".

(** A loader that accepts any non-empty weights file. *)
Definition load (fs : Fs.t) (p : string) : result (list byte) :=
  match Fs.read fs p with
  | Ok [] => Raise (mkExn OtherException "Ran out of input")
  | Ok bs => Ok bs
  | Raise e => Raise e
  end.

(** A detector run that succeeds and leaves a new run directory [name]
    holding [image0.jpg], listed last in the output directory. *)
Definition detect_into (name : string) (picture : list byte)
    (command : string) (fs : Fs.t) : Z * Fs.t :=
  let t := Fs.now fs + 1 in
  let listed :=
    match Fs.lookup fs out with Some (Fs.Dir es _) => es | _ => [] end in
  (0, Fs.mk ((out, Fs.Dir (listed ++ [name])%list t)
               :: (OsPath.join out [name], Fs.Dir ["image0.jpg"] t)
               :: (OsPath.join out [name; "image0.jpg"], Fs.File picture t)
               :: Fs.nodes fs) t).

(** A detector run that fails with wait status [c] and writes nothing. *)
Definition detect_fails (c : Z) (command : string) (fs : Fs.t) : Z * Fs.t :=
  (c, fs).

Definition externals (system : string -> Fs.t -> Z * Fs.t) : Externals :=
  mkExternals (list byte) "/app" load system
    (fun fileName => OsPath.join "/app" ["data"; fileName]).

Definition picture : list byte := [xff; xd8; xff; xe0; x00; x10].
Definition annotated : list byte := [xff; xd8; xff; xe1; x2a].
Definition stale : list byte := [xff; xd8; x00].

(** The directories above the installation, [/app/yolov5] listing
    [entries]. *)
Definition ground (entries : list string) : list (string * Fs.node) :=
  [("/", Fs.Dir ["app"] 0);
   ("/app", Fs.Dir ["yolov5"] 0);
   ("/app/yolov5", Fs.Dir entries 0)].

(** The directory above the output directory. *)
Definition runs : list (string * Fs.node) :=
  [("/app/yolov5/runs", Fs.Dir ["detect"] 0)].

(** Weights installed, nothing detected yet. *)
Definition installed : World :=
  mkWorld (Fs.mk ((weights, Fs.File [x80; x02] 1) :: ground ["my_model.pt"]) 10) [].

(** No weights file at all. *)
Definition no_weights : World := mkWorld (Fs.mk (ground []) 10) [].

(** A weights file that does not deserialise. *)
Definition corrupt : World :=
  mkWorld (Fs.mk ((weights, Fs.File [] 1) :: ground ["my_model.pt"]) 10) [].

(** Weights installed and one run directory left by an earlier request. *)
Definition with_stale_run : World :=
  mkWorld (Fs.mk ([(weights, Fs.File [x80; x02] 1);
                   (out, Fs.Dir ["exp"] 5);
                   (OsPath.join out ["exp"], Fs.Dir ["image0.jpg"] 5);
                   (OsPath.join out ["exp"; "image0.jpg"], Fs.File stale 5)]
                    ++ runs ++ ground ["my_model.pt"; "runs"])%list 10) [].

(** Weights installed, and the run directory [exp2] of another request that
    finished at tick 11. *)
Definition with_concurrent_run : World :=
  mkWorld (Fs.mk ([(weights, Fs.File [x80; x02] 1);
                   (out, Fs.Dir ["exp2"] 11);
                   (OsPath.join out ["exp2"], Fs.Dir ["image0.jpg"] 11);
                   (OsPath.join out ["exp2"; "image0.jpg"], Fs.File stale 11)]
                    ++ runs ++ ground ["my_model.pt"; "runs"])%list 10) [].

(** Two run directories finished within one timestamp tick, listed in the
    order given. *)
Definition two_runs (listing : list string) : Fs.t :=
  Fs.mk [(out, Fs.Dir listing 7);
         (OsPath.join out ["exp2"], Fs.Dir ["image0.jpg"] 7);
         (OsPath.join out ["exp3"], Fs.Dir ["image0.jpg"] 7);
         (OsPath.join out ["exp2"; "image0.jpg"], Fs.File picture 7);
         (OsPath.join out ["exp3"; "image0.jpg"], Fs.File annotated 7)] 10.

Definition post (image : string) : Request :=
  mkRequest true (Some (JObj [("image", JStr image)])).

Definition not_json : Request := mkRequest false None.

(** The [ClientApp] object of this installation. *)
Definition app (system : string -> Fs.t -> Z * Fs.t) : ClientApp.t (externals system) :=
  @ClientApp.mk (externals system) "/app" "inputImage.jpg" out weights
    (Some [x80; x02]).

End Demo.

(** ** [get_local_ip] and [/train] *)

(** The collaborators of [get_local_ip] and [trainRoute]: the [socket]
    module and the training pipeline of [signLanguage.pipeline]. *)
Record Collaborators : Type := mkCollaborators {
  (** a socket object *)
  Socket : Type;
  (** [socket.socket(socket.AF_INET, socket.SOCK_DGRAM)] *)
  socket_socket : M Socket;
  (** [s.connect((host, port))] *)
  connect : Socket -> string -> Z -> M unit;
  (** [s.getsockname()]: the address and the port *)
  getsockname : Socket -> M (string * Z);
  (** [s.close()] *)
  close : Socket -> M unit;
  (** a [TrainPipeline] object *)
  Pipeline : Type;
  (** [TrainPipeline()] *)
  TrainPipeline : M Pipeline;
  (** [obj.run_pipeline()] *)
  run_pipeline : Pipeline -> M unit
}.

Section Train.
Context (C : Collaborators).

(** [get_local_ip]: "Get the local IP address of the machine". *)
Definition get_local_ip : M string :=
  try_except
    (s <- socket_socket C ;;
     connect C s "8.8.8.8" 80 ;;
     name <- getsockname C s ;;
     let ip := fst name in
     close C s ;;
     ret ip)
    (fun _ => ret "127.0.0.1").

(** [/train] *)
Definition trainRoute : M Response :=
  try_except
    (obj <- TrainPipeline C ;;
     run_pipeline C obj ;;
     ip <- get_local_ip ;;
     ret (mkResponse
            (Json (JObj [("message", JStr "Training Successful!");
                         ("ip", JStr ip)])) 200))
    (fun e => ret (with_status (jsonify "error" (str e)) 500)).

End Train.

(** [grown fs fs']: what was in [fs] is still in [fs']: regular files as
    they were, directories as directories. *)
Definition grown (fs fs' : Fs.t) : Prop :=
  (forall q c m, Fs.lookup fs q = Some (Fs.File c m) ->
                 Fs.lookup fs' q = Some (Fs.File c m))
  /\ (forall q, Fs.isdir fs q = true -> Fs.isdir fs' q = true).

(** What a view of [app.py] answers with: [{"image": ...}] with status 200,
    or [{"error": ...}] with status 400 or 500. *)
Definition is_answer (r : Response) : Prop :=
  (exists text, r = jsonify "image" text)
  \/ (exists message, r = with_status (jsonify "error" message) 400)
  \/ (exists message, r = with_status (jsonify "error" message) 500).

(** [answers m]: whenever [m] returns, it returns such an answer. *)
Definition answers (m : M Response) : Prop :=
  forall w, match m w with (Ok r, _) => is_answer r | (Raise _, _) => True end.

Module Demo2.


(** A machine whose socket steps succeed or fail as told; a pipeline that
    logs its run and fails when told to. *)
Definition step (fails : bool) (what : string) : M unit :=
  if fails then raise (mkExn OtherException what) else ret tt.

Definition collaborators (no_route close_fails training_fails : bool)
    : Collaborators :=
  mkCollaborators unit
    (ret tt)
    (fun _ _ _ => step no_route "Network is unreachable")
    (fun _ => ret ("192.168.1.20", 54321))
    (fun _ => step close_fails "Bad file descriptor")
    unit
    (ret tt)
    (fun _ => print "training" ;; step training_fails "Data validation failed").

(** A weights file in place, and a regular file where the output directory
    should be. *)
Definition blocked : World :=
  mkWorld (Fs.mk ([(Demo.weights, Fs.File [x80; x02] 1);
                   (Demo.out, Fs.File [] 2)]
                    ++ Demo.runs ++ Demo.ground ["my_model.pt"; "runs"])%list 10) [].

(** A run directory whose [image0.jpg] is itself a directory. *)
Definition odd_run : World :=
  mkWorld (Fs.mk ([(Demo.weights, Fs.File [x80; x02] 1);
                   (Demo.out, Fs.Dir ["exp"] 5);
                   (OsPath.join Demo.out ["exp"], Fs.Dir ["image0.jpg"] 5);
                   (OsPath.join Demo.out ["exp"; "image0.jpg"], Fs.Dir [] 5)]
                    ++ Demo.runs ++ Demo.ground ["my_model.pt"; "runs"])%list 10) [].

(** An output directory with a file and directories of several names and
    distinct modification times. *)
Definition mixed : Fs.t :=
  Fs.mk [(Demo.out, Fs.Dir ["exp"; "export"; "old"; "exp7"; "exp9"] 9);
         (OsPath.join Demo.out ["exp"], Fs.Dir [] 3);
         (OsPath.join Demo.out ["export"], Fs.Dir [] 8);
         (OsPath.join Demo.out ["old"], Fs.Dir [] 9);
         (OsPath.join Demo.out ["exp7"], Fs.File [] 9);
         (OsPath.join Demo.out ["exp9"], Fs.Dir [] 6)] 10.

End Demo2.

(** * Properties *)

(** ** Running computations *)

Section Running.
Context {A B : Type}.

Lemma run_bind_ok (m : M A) (k : A -> M B) w a w' :
  m w = (Ok a, w') -> bind m k w = k a w'.
Proof. unfold bind. now intros ->. Qed.

Lemma run_bind_raise (m : M A) (k : A -> M B) w e w' :
  m w = (Raise e, w') -> bind m k w = (Raise e, w').
Proof. unfold bind. now intros ->. Qed.

Lemma run_try_ok (m : M A) (h : exn -> M A) w a w' :
  m w = (Ok a, w') -> try_except m h w = (Ok a, w').
Proof. unfold try_except. now intros ->. Qed.

Lemma run_try_raise (m : M A) (h : exn -> M A) w e w' :
  m w = (Raise e, w') -> try_except m h w = h e w'.
Proof. unfold try_except. now intros ->. Qed.

End Running.

(** ** Observations that a computation leaves alone *)

Section Keeps.
Context {X : Type} (obs : World -> X).

Lemma keeps_ret A (a : A) : keeps obs (ret a).
Proof. intros w. reflexivity. Qed.

Lemma keeps_raise A e : keeps obs (@raise A e).
Proof. intros w. reflexivity. Qed.

Lemma keeps_pure A (r : result A) : keeps obs (fun w => (r, w)).
Proof. intros w. reflexivity. Qed.

Lemma keeps_reading A (f : Fs.t -> result A) : keeps obs (reading f).
Proof. intros w. reflexivity. Qed.

Lemma keeps_bind A B (m : M A) (k : A -> M B) :
  keeps obs m -> (forall a, keeps obs (k a)) -> keeps obs (bind m k).
Proof.
  intros Hm Hk w. unfold bind. specialize (Hm w).
  destruct (m w) as [[a|e] w']; simpl in *; [|assumption].
  now rewrite Hk.
Qed.

Lemma keeps_try A (m : M A) (h : exn -> M A) :
  keeps obs m -> (forall e, keeps obs (h e)) -> keeps obs (try_except m h).
Proof.
  intros Hm Hh w. unfold try_except. specialize (Hm w).
  destruct (m w) as [[a|e] w']; simpl in *; [assumption|].
  now rewrite Hh.
Qed.

Lemma keeps_print line : deaf_to_print obs -> keeps obs (print line).
Proof. intros H w. apply H. Qed.

Lemma keeps_updating f : trace_only obs -> keeps obs (updating f).
Proof.
  intros H w. unfold updating.
  destruct (f (fs w)); simpl; [apply H | reflexivity].
Qed.

End Keeps.

Lemma commands_app t1 t2 : commands (t1 ++ t2) = (commands t1 ++ commands t2)%list.
Proof. unfold commands. apply flat_map_app. Qed.

Lemma load_attempts_app t1 t2 : load_attempts (t1 ++ t2) = (load_attempts t1 + load_attempts t2)%nat.
Proof. unfold load_attempts. now rewrite filter_app, length_app. Qed.

Lemma load_attempts_print line : load_attempts [Print line] = 0%nat.
Proof. reflexivity. Qed.

Lemma commands_print line : commands [Print line] = [].
Proof. reflexivity. Qed.

Lemma fs_deaf : deaf_to_print see_fs.
Proof. intros w line. reflexivity. Qed.

Lemma commands_deaf : deaf_to_print see_commands.
Proof.
  intros w line. unfold see_commands. simpl.
  rewrite commands_app. simpl. apply app_nil_r.
Qed.

Lemma attempts_deaf : deaf_to_print see_attempts.
Proof.
  intros w line. unfold see_attempts. simpl.
  rewrite load_attempts_app. simpl. apply Nat.add_0_r.
Qed.

Lemma commands_trace_only : trace_only see_commands.
Proof. intros w fs'. reflexivity. Qed.

Lemma attempts_trace_only : trace_only see_attempts.
Proof. intros w fs'. reflexivity. Qed.

Create HintDb keeps discriminated.
#[local] Hint Resolve keeps_ret keeps_raise keeps_pure keeps_reading
  keeps_print keeps_updating
  fs_deaf commands_deaf attempts_deaf commands_trace_only attempts_trace_only : keeps.

(** Break a computation into its steps. *)
Ltac keeps_step :=
  lazymatch goal with
  | |- keeps _ (bind _ _) => apply keeps_bind; [|intros ?]
  | |- keeps _ (try_except _ _) => apply keeps_try; [|intros ?]
  | |- keeps _ (if ?b then _ else _) => destruct b
  | |- keeps _ (match ?x with _ => _ end) => destruct x
  | |- keeps _ _ => solve [auto with keeps]
  end.
Ltac keeps_auto := repeat keeps_step.

Section RoutesKeep.
Context (E : Externals).

Lemma encode_keeps X (obs : World -> X) path :
  keeps obs (encodeImageIntoBase64 path).
Proof. unfold encodeImageIntoBase64. keeps_auto. Qed.

(** Looking up and serving the latest image changes neither the file system
    nor the trace. *)
Lemma latest_keeps X (obs : World -> X) (clApp : ClientApp.t E) :
  keeps obs (predictRoute_latest E clApp).
Proof.
  unfold predictRoute_latest. keeps_auto; apply encode_keeps.
Qed.

Lemma decode_keeps X (obs : World -> X) image name :
  trace_only obs -> keeps obs (decodeImage E image name).
Proof. intros H. unfold decodeImage. keeps_auto. Qed.

Lemma ensure_keeps X (obs : World -> X) (self : ClientApp.t E) :
  trace_only obs -> keeps obs (ClientApp._ensure_directories E self).
Proof. intros H. unfold ClientApp._ensure_directories. keeps_auto. Qed.

End RoutesKeep.

(** ** The codec *)

Module Base64Facts.
Import Base64.
Local Open Scope N_scope.

(** Linear arithmetic with division and remainder by constants. *)
Ltac div_lia := zify; Z.to_euclidean_division_equations; lia.

Lemma below_64 (P : nat -> Prop) :
  (forall m, (m < 64)%nat -> P m) -> forall n, n < 64 -> P (N.to_nat n).
Proof. intros H n Hn. apply H. lia. Qed.

Lemma value_of_char_of n : n < 64 -> value_of (char_of n) = Some n.
Proof.
  intros Hn. rewrite <- (N2Nat.id n) at 2. revert n Hn.
  unfold char_of.
  apply (below_64 (fun m =>
           value_of (nth m alphabet "="%char) = Some (N.of_nat m))).
  intros m Hm.
  do 64 (destruct m as [|m]; [reflexivity|]). lia.
Qed.

Lemma char_of_not_pad n : n < 64 -> Ascii.eqb (char_of n) "=" = false.
Proof.
  revert n. unfold char_of.
  apply (below_64 (fun m => Ascii.eqb (nth m alphabet "="%char) "=" = false)).
  intros m Hm.
  do 64 (destruct m as [|m]; [reflexivity|]). lia.
Qed.

Lemma index_of_nth c l i :
  index_of c l = Some i -> nth i l "="%char = c /\ (i < List.length l)%nat.
Proof.
  revert i. induction l as [|x r IH]; intros i; simpl; [discriminate|].
  destruct (Ascii.eqb c x) eqn:Hc.
  - intros [= <-]. apply Ascii.eqb_eq in Hc. split; [now symmetry | lia].
  - destruct (index_of c r) as [j|]; [|discriminate].
    intros [= <-]. destruct (IH j eq_refl). split; [assumption | lia].
Qed.

Lemma char_of_value_of c v : value_of c = Some v -> char_of v = c /\ v < 64.
Proof.
  unfold value_of, char_of.
  destruct (index_of c alphabet) as [i|] eqn:Hi; [|discriminate].
  intros [= <-]. apply index_of_nth in Hi. destruct Hi as [Hn Hl].
  rewrite Nat2N.id. split; [assumption|].
  change (List.length alphabet) with 64%nat in Hl. lia.
Qed.

Lemma value_of_pad : value_of "=" = None.
Proof. reflexivity. Qed.

Lemma byte_of_to_N b : byte_of (Byte.to_N b) = b.
Proof. unfold byte_of. now rewrite Byte.of_to_N. Qed.

Lemma to_N_byte_of n : n < 256 -> Byte.to_N (byte_of n) = n.
Proof.
  intros Hn. unfold byte_of.
  destruct (Byte.of_N n) as [b|] eqn:Hb.
  - now apply Byte.to_of_N.
  - apply Byte.of_N_None_iff in Hb. lia.
Qed.

Lemma to_N_lt b : Byte.to_N b < 256.
Proof. pose proof (Byte.to_N_bounded b). lia. Qed.

Lemma encode_empty bs : encode bs = "" -> bs = [].
Proof. destruct bs as [|a [|b [|c r]]]; simpl; [reflexivity | discriminate ..]. Qed.

(** Induction on byte lists three bytes at a time. *)
Lemma bytes_by_threes (A : Type) (P : list A -> Prop) :
  P [] -> (forall a, P [a]) -> (forall a b, P [a; b]) ->
  (forall a b c r, P r -> P (a :: b :: c :: r)) ->
  forall l, P l.
Proof.
  intros H0 H1 H2 H3.
  fix IH 1. intros [|a [|b [|c r]]]; [exact H0 | apply H1 | apply H2 |].
  apply H3, IH.
Qed.

(** Decoding undoes encoding, for every byte sequence. *)
Lemma decode_encode bs : decode (encode bs) = Some bs.
Proof.
  induction bs as [|a|a b|a b c r IH] using bytes_by_threes.
  - reflexivity.
  - pose proof (to_N_lt a) as Ha.
    cbn [encode decode]. unfold decode_last.
    rewrite !value_of_char_of by div_lia. cbn [Ascii.eqb Bool.eqb].
    replace ((Byte.to_N a mod 4 * 16) mod 16 =? 0) with true
      by (symmetry; apply N.eqb_eq; div_lia).
    replace (Byte.to_N a / 4 * 4 + Byte.to_N a mod 4 * 16 / 16)
      with (Byte.to_N a) by div_lia.
    now rewrite byte_of_to_N.
  - pose proof (to_N_lt a) as Ha. pose proof (to_N_lt b) as Hb.
    cbn [encode decode]. unfold decode_last.
    rewrite !value_of_char_of by div_lia. cbn [Ascii.eqb Bool.eqb].
    rewrite (char_of_not_pad (Byte.to_N b mod 16 * 4)) by div_lia.
    replace ((Byte.to_N b mod 16 * 4) mod 4 =? 0) with true
      by (symmetry; apply N.eqb_eq; div_lia).
    replace (Byte.to_N a / 4 * 4 + (Byte.to_N a mod 4 * 16 + Byte.to_N b / 16) / 16)
      with (Byte.to_N a) by div_lia.
    replace ((Byte.to_N a mod 4 * 16 + Byte.to_N b / 16) mod 16 * 16
             + Byte.to_N b mod 16 * 4 / 4)
      with (Byte.to_N b) by div_lia.
    now rewrite !byte_of_to_N.
  - pose proof (to_N_lt a) as Ha. pose proof (to_N_lt b) as Hb.
    pose proof (to_N_lt c) as Hc.
    assert (Hbytes :
      [byte_of (Byte.to_N a / 4 * 4
                + (Byte.to_N a mod 4 * 16 + Byte.to_N b / 16) / 16);
       byte_of ((Byte.to_N a mod 4 * 16 + Byte.to_N b / 16) mod 16 * 16
                + (Byte.to_N b mod 16 * 4 + Byte.to_N c / 64) / 4);
       byte_of ((Byte.to_N b mod 16 * 4 + Byte.to_N c / 64) mod 4 * 64
                + Byte.to_N c mod 64)] = [a; b; c]).
    { replace (Byte.to_N a / 4 * 4
               + (Byte.to_N a mod 4 * 16 + Byte.to_N b / 16) / 16)
        with (Byte.to_N a) by div_lia.
      replace ((Byte.to_N a mod 4 * 16 + Byte.to_N b / 16) mod 16 * 16
               + (Byte.to_N b mod 16 * 4 + Byte.to_N c / 64) / 4)
        with (Byte.to_N b) by div_lia.
      replace ((Byte.to_N b mod 16 * 4 + Byte.to_N c / 64) mod 4 * 64
               + Byte.to_N c mod 64)
        with (Byte.to_N c) by div_lia.
      now rewrite !byte_of_to_N. }
    cbn [encode decode].
    destruct (encode r) as [|c5 rest] eqn:Hr.
    + apply encode_empty in Hr. subst r.
      unfold decode_last.
      rewrite !value_of_char_of by div_lia.
      rewrite (char_of_not_pad (Byte.to_N c mod 64)) by div_lia.
      now rewrite Hbytes.
    + rewrite !value_of_char_of by div_lia.
      rewrite IH. injection Hbytes as -> -> ->. reflexivity.
Qed.

(** Induction on texts four characters at a time. *)
Lemma text_by_fours (P : string -> Prop) :
  P "" ->
  (forall c1, P (String c1 "")) ->
  (forall c1 c2, P (String c1 (String c2 ""))) ->
  (forall c1 c2 c3, P (String c1 (String c2 (String c3 "")))) ->
  (forall c1 c2 c3 c4 r, P r -> P (String c1 (String c2 (String c3 (String c4 r))))) ->
  forall s, P s.
Proof.
  intros H0 H1 H2 H3 H4.
  fix IH 1. intros [|c1 [|c2 [|c3 [|c4 r]]]];
    [exact H0 | apply H1 | apply H2 | apply H3 |].
  apply H4, IH.
Qed.

Lemma decode_last_encode c1 c2 c3 c4 bs :
  decode_last c1 c2 c3 c4 = Some bs ->
  encode bs = String c1 (String c2 (String c3 (String c4 ""))).
Proof.
  unfold decode_last.
  destruct (value_of c1) as [v1|] eqn:H1; [|discriminate].
  destruct (value_of c2) as [v2|] eqn:H2; [|discriminate].
  apply char_of_value_of in H1, H2. destruct H1 as [<- L1], H2 as [<- L2].
  destruct (Ascii.eqb c4 "=") eqn:E4.
  - apply Ascii.eqb_eq in E4. subst c4.
    destruct (Ascii.eqb c3 "=") eqn:E3.
    + apply Ascii.eqb_eq in E3. subst c3.
      destruct (v2 mod 16 =? 0) eqn:Z2; [|discriminate].
      apply N.eqb_eq in Z2. intros [= <-].
      cbn [encode]. rewrite to_N_byte_of by div_lia.
      do 2 f_equal; [f_equal; div_lia|]. f_equal. f_equal. div_lia.
    + destruct (value_of c3) as [v3|] eqn:H3; [|discriminate].
      apply char_of_value_of in H3. destruct H3 as [<- L3].
      destruct (v3 mod 4 =? 0) eqn:Z3; [|discriminate].
      apply N.eqb_eq in Z3. intros [= <-].
      cbn [encode]. rewrite !to_N_byte_of by div_lia.
      f_equal; [f_equal; div_lia|].
      f_equal; [f_equal; div_lia|].
      f_equal. f_equal. div_lia.
  - destruct (value_of c3) as [v3|] eqn:H3; [|discriminate].
    destruct (value_of c4) as [v4|] eqn:H4; [|discriminate].
    apply char_of_value_of in H3, H4. destruct H3 as [<- L3], H4 as [<- L4].
    intros [= <-].
    cbn [encode]. rewrite !to_N_byte_of by div_lia.
    f_equal; [f_equal; div_lia|].
    f_equal; [f_equal; div_lia|].
    f_equal; [f_equal; div_lia|].
    f_equal. f_equal. div_lia.
Qed.

(** Encoding undoes decoding, for every text the decoder accepts. *)
Lemma encode_decode s bs : decode s = Some bs -> encode bs = s.
Proof.
  revert bs.
  induction s as [|c1|c1 c2|c1 c2 c3|c1 c2 c3 c4 r IH] using text_by_fours;
    intros bs; cbn [decode]; try discriminate.
  - now intros [= <-].
  - destruct r as [|c5 rest]; [apply decode_last_encode|].
    destruct (value_of c1) as [v1|] eqn:H1; [|discriminate].
    destruct (value_of c2) as [v2|] eqn:H2; [|discriminate].
    destruct (value_of c3) as [v3|] eqn:H3; [|discriminate].
    destruct (value_of c4) as [v4|] eqn:H4; [|discriminate].
    destruct (decode (String c5 rest)) as [tl|] eqn:Hd; [|discriminate].
    apply char_of_value_of in H1, H2, H3, H4.
    destruct H1 as [<- L1], H2 as [<- L2], H3 as [<- L3], H4 as [<- L4].
    intros [= <-].
    cbn [encode]. rewrite !to_N_byte_of by div_lia.
    rewrite (IH tl eq_refl).
    f_equal; [f_equal; div_lia|].
    f_equal; [f_equal; div_lia|].
    f_equal; [f_equal; div_lia|].
    f_equal. f_equal. div_lia.
Qed.

End Base64Facts.

(** ** [ClientApp] *)

Section ClientAppFacts.
Context (E : Externals).

Lemma load_model_missing p w :
  Fs.exists_ (fs w) p = false ->
  ClientApp._load_model E p w
  = (Raise (mkExn FileNotFoundError ("Model file not found: " ++ p)), w).
Proof.
  intros H. unfold ClientApp._load_model, bind, reading. now rewrite H.
Qed.

Lemma load_model_ok p w m :
  Fs.exists_ (fs w) p = true ->
  load_block E (fs w) p = Ok m ->
  ClientApp._load_model E p w
  = (Ok (Some m), mkWorld (fs w) (trace w ++ [LoadAttempt p])).
Proof.
  intros H L.
  unfold ClientApp._load_model, bind, reading, try_except, emit, ret.
  rewrite H. simpl. now rewrite L.
Qed.


Lemma load_model_commands p : keeps see_commands (ClientApp._load_model E p).
Proof.
  intros w. unfold ClientApp._load_model, bind, reading.
  destruct (Fs.exists_ (fs w) p); simpl; [|reflexivity].
  unfold try_except, bind, emit, reading, ret, print. simpl.
  destruct (load_block E (fs w) p); simpl;
    unfold see_commands; simpl; rewrite ?commands_app; simpl;
    now rewrite ?app_nil_r.
Qed.

Lemma load_model_fs p : keeps see_fs (ClientApp._load_model E p).
Proof.
  intros w. unfold ClientApp._load_model, bind, reading.
  destruct (Fs.exists_ (fs w) p); simpl; [|reflexivity].
  unfold try_except, bind, emit, reading, ret, print. simpl.
  destruct (load_block E (fs w) p); reflexivity.
Qed.

(** With the weights file there, [_load_model] runs its loading block
    exactly once. *)
Lemma load_model_attempts p w :
  Fs.exists_ (fs w) p = true ->
  see_attempts (snd (ClientApp._load_model E p w)) = S (see_attempts w).
Proof.
  intros H. unfold ClientApp._load_model, bind, reading. rewrite H. simpl.
  unfold try_except, bind, emit, reading, ret, print. simpl.
  destruct (load_block E (fs w) p) as [m|e]; cbn [fst snd];
    unfold see_attempts; cbn [trace]; rewrite ?load_attempts_app;
    rewrite ?load_attempts_print; change (load_attempts [LoadAttempt p]) with 1%nat; lia.
Qed.

(** Whatever [__init__] returns has the fixed attribute values. *)
Lemma init_attributes w clApp w' :
  ClientApp.__init__ E w = (Ok clApp, w') ->
  ClientApp.base_dir clApp = dirname_file E
  /\ ClientApp.filename clApp = "inputImage.jpg"
  /\ ClientApp.output_dir clApp = (the_output_dir E)
  /\ ClientApp.model_path clApp = (the_model_path E).
Proof.
  unfold ClientApp.__init__, bind.
  destruct (ClientApp._load_model E _ w) as [[m|e] w1]; [|discriminate].
  destruct (ClientApp._ensure_directories E _ w1) as [[[]|e] w2]; [|discriminate].
  unfold ret. intros [= <- <-]. simpl. repeat split.
Qed.

Lemma init_commands : keeps see_commands (ClientApp.__init__ E).
Proof.
  unfold ClientApp.__init__. cbv zeta.
  apply keeps_bind; [apply load_model_commands|intros m].
  apply keeps_bind; [apply ensure_keeps; auto with keeps|intros _].
  auto with keeps.
Qed.

Lemma init_missing w :
  Fs.exists_ (fs w) (the_model_path E) = false ->
  ClientApp.__init__ E w
  = (Raise (mkExn FileNotFoundError
              ("Model file not found: " ++ the_model_path E)), w).
Proof.
  intros H. unfold ClientApp.__init__. cbv zeta.
  apply run_bind_raise. now apply load_model_missing.
Qed.

Lemma init_attempts w :
  Fs.exists_ (fs w) (the_model_path E) = true ->
  see_attempts (snd (ClientApp.__init__ E w)) = S (see_attempts w).
Proof.
  intros H. unfold ClientApp.__init__. cbv zeta. unfold bind at 1.
  pose proof (load_model_attempts _ _ H) as L. fold (the_model_path E).
  destruct (ClientApp._load_model E (the_model_path E) w) as [[m|e] w1];
    simpl in L; [|assumption].
  rewrite <- L.
  apply (keeps_bind see_attempts); [apply ensure_keeps; auto with keeps|].
  intros _. auto with keeps.
Qed.

(** What [run_yolo_detection] does, whatever the status of the command: it
    returns normally, having issued one shell command. *)
Lemma run_yolo_detection_runs self image_path w :
  exists w',
    ClientApp.run_yolo_detection E self image_path w = (Ok tt, w')
    /\ fs w' = snd (os_system E (yolo_cmd_str E self image_path) (fs w))
    /\ see_commands w' = (see_commands w ++ [yolo_cmd_str E self image_path])%list
    /\ see_attempts w' = see_attempts w.
Proof.
  unfold ClientApp.run_yolo_detection. cbv zeta. fold (yolo_cmd_str E self image_path).
  unfold try_except, bind, emit, raise, ret, print. cbn [fs trace].
  destruct (os_system E (yolo_cmd_str E self image_path) (fs w)) as [c fs'] eqn:S.
  cbn [snd].
  destruct (negb (c =? 0)); eexists; (split; [reflexivity|]);
    unfold see_commands, see_attempts; cbn [fs trace];
    rewrite ?commands_app, ?load_attempts_app, ?commands_print, ?load_attempts_print;
    change (commands [OsSystem (yolo_cmd_str E self image_path)])
      with [yolo_cmd_str E self image_path];
    change (load_attempts [OsSystem (yolo_cmd_str E self image_path)]) with 0%nat;
    rewrite ?app_nil_r; repeat split; lia.
Qed.

End ClientAppFacts.

(** ** Artifact resolution: which run directory is served *)

Section MaxFacts.
Context {A : Type}.

(** [max_from] returns the first element whose key is maximal: everything
    before it has a strictly smaller key, nothing after it has a larger one. *)
Lemma max_from_first_greatest (l : list (A * Z)) :
  forall best kbest,
  exists k l1 l2,
    (best, kbest) :: l = (l1 ++ (max_from best kbest l, k) :: l2)%list
    /\ (forall x kx, In (x, kx) l1 -> kx < k)
    /\ (forall x kx, In (x, kx) l2 -> kx <= k).
Proof.
  induction l as [|[x kx] r IH]; intros best kbest.
  - exists kbest, [], []. simpl. split; [reflexivity|]. split; intros ? ? [].
  - simpl max_from. destruct (kbest <? kx) eqn:Hlt.
    + apply Z.ltb_lt in Hlt.
      destruct (IH x kx) as (k & l1 & l2 & Heq & Hb & Ha).
      assert (Hk : kx <= k).
      { destruct l1 as [|p l1']; simpl in Heq.
        - injection Heq as _ Hk _. lia.
        - injection Heq as Hp _. subst p.
          specialize (Hb x kx (or_introl eq_refl)). lia. }
      exists k, ((best, kbest) :: l1), l2. simpl.
      split; [f_equal; exact Heq|]. split; [|assumption].
      intros y ky [[= <- <-]|Hin]; [lia | eauto].
    + apply Z.ltb_ge in Hlt.
      destruct (IH best kbest) as (k & l1 & l2 & Heq & Hb & Ha).
      destruct l1 as [|p l1']; simpl in Heq.
      * injection Heq as Hbest Hk Hr.
        exists k, [], ((x, kx) :: l2). simpl.
        split; [now rewrite <- Hbest, <- Hk, <- Hr|]. split; [intros ? ? [] |].
        intros y ky [[= <- <-]|Hin]; [lia | eauto].
      * injection Heq as Hp Hr. subst p.
        exists k, ((best, kbest) :: (x, kx) :: l1'), l2. simpl.
        split; [do 2 f_equal; exact Hr|]. split; [|assumption].
        pose proof (Hb best kbest (or_introl eq_refl)).
        intros y ky [[= <- <-]|[[= <- <-]|Hin]]; [lia | lia |].
        apply (Hb y ky). now right.
Qed.

Lemma same_key_same_element (l : list (A * Z)) a b k :
  NoDup (map snd l) -> In (a, k) l -> In (b, k) l -> a = b.
Proof.
  induction l as [|[x kx] r IH]; simpl; [intros _ []|].
  intros Hnd Ha Hb. inversion Hnd as [|? ? Hnotin Hnd']; subst.
  destruct Ha as [[= -> ->]|Ha], Hb as [[= <-]|Hb].
  - reflexivity.
  - exfalso. apply Hnotin. apply (in_map snd) in Hb. exact Hb.
  - exfalso. subst kx. apply Hnotin. apply (in_map snd) in Ha. exact Ha.
  - now apply IH.
Qed.

Lemma max_by_key_greatest (l : list (A * Z)) r :
  max_by_key l = Some r ->
  exists k, In (r, k) l /\ forall x kx, In (x, kx) l -> kx <= k.
Proof.
  destruct l as [|[x kx] rest]; [discriminate|].
  unfold max_by_key. intros [= <-].
  destruct (max_from_first_greatest rest x kx) as (k & l1 & l2 & Heq & Hb & Ha).
  exists k. rewrite Heq. split; [apply in_elt|].
  intros y ky Hin. apply in_app_or in Hin.
  destruct Hin as [Hin|[[= <- <-]|Hin]]; [|lia|eauto].
  specialize (Hb y ky Hin). lia.
Qed.

(** When no two keys are equal, the order of the list does not matter. *)
Lemma max_by_key_any_order (l l' : list (A * Z)) :
  Permutation l l' -> NoDup (map snd l) -> max_by_key l = max_by_key l'.
Proof.
  intros Hp Hnd.
  destruct (max_by_key l) as [r|] eqn:Hl, (max_by_key l') as [r'|] eqn:Hl'.
  - destruct (max_by_key_greatest _ _ Hl) as (k & Hin & Hmax).
    destruct (max_by_key_greatest _ _ Hl') as (k' & Hin' & Hmax').
    apply (Permutation_in _ (Permutation_sym Hp)) in Hin'.
    assert (k' = k).
    { pose proof (Hmax _ _ Hin').
      pose proof (Hmax' _ _ (Permutation_in _ Hp Hin)). lia. }
    subst k'. f_equal. exact (same_key_same_element l r r' k Hnd Hin Hin').
  - destruct l' as [|[? ?] ?]; [|discriminate].
    apply Permutation_sym, Permutation_nil in Hp. subst l. discriminate.
  - destruct l as [|[? ?] ?]; [|discriminate].
    apply Permutation_nil in Hp. subst l'. discriminate.
  - reflexivity.
Qed.

End MaxFacts.

Section Resolution.

Lemma traverse_keys fs out folders keyed :
  traverse (keyed_by fs out) folders = Ok keyed ->
  map fst keyed = folders
  /\ forall x m, In (x, m) keyed -> Fs.getmtime fs (OsPath.join out [x]) = Ok m.
Proof.
  revert keyed. induction folders as [|x r IH]; intros keyed; simpl.
  - intros [= <-]. split; [reflexivity | intros ? ? []].
  - unfold keyed_by at 1.
    destruct (Fs.getmtime fs (OsPath.join out [x])) as [m|e] eqn:Hm; [|discriminate].
    destruct (traverse (keyed_by fs out) r) as [ys|e]; [|discriminate].
    intros [= <-]. destruct (IH ys eq_refl) as [Hmap Hkeys].
    split; [simpl; now rewrite Hmap|].
    intros y my [[= <- <-]|Hin]; [assumption | now apply Hkeys].
Qed.

Lemma traverse_total fs out folders :
  (forall x, In x folders -> Fs.isdir fs (OsPath.join out [x]) = true) ->
  exists keyed, traverse (keyed_by fs out) folders = Ok keyed.
Proof.
  induction folders as [|x r IH]; intros Hdir; simpl; [now eexists|].
  unfold keyed_by at 1.
  pose proof (Hdir x (or_introl eq_refl)) as Hx.
  unfold Fs.isdir in Hx. unfold Fs.getmtime.
  destruct (Fs.lookup fs (OsPath.join out [x])) as [[c m|es m]|]; try discriminate.
  destruct IH as [ys ->]; [intros y Hy; apply Hdir; now right|].
  now eexists.
Qed.

Lemma exp_folders_are_dirs fs out folders :
  exp_folders fs out = Ok folders ->
  forall x, In x folders ->
    startswith x "exp" = true /\ Fs.isdir fs (OsPath.join out [x]) = true.
Proof.
  unfold exp_folders. destruct (Fs.listdir fs out) as [names|e]; [|discriminate].
  intros [= <-] x Hx. apply filter_In in Hx. destruct Hx as [_ Hx].
  now apply andb_true_iff in Hx.
Qed.

(** The folder that [latest_exp_folder] picks among the run directories. *)
Lemma latest_exp_folder_first_newest fs out folders :
  exp_folders fs out = Ok folders -> folders <> [] ->
  exists d m before after,
    latest_exp_folder fs out folders = Ok d
    /\ folders = (before ++ d :: after)%list
    /\ Fs.getmtime fs (OsPath.join out [d]) = Ok m
    /\ (forall d' m', In d' before ->
          Fs.getmtime fs (OsPath.join out [d']) = Ok m' -> m' < m)
    /\ (forall d' m', In d' after ->
          Fs.getmtime fs (OsPath.join out [d']) = Ok m' -> m' <= m).
Proof.
  intros Hexp Hne.
  destruct (traverse_total fs out folders) as [keyed Hk].
  { intros x Hx. now apply (exp_folders_are_dirs _ _ _ Hexp). }
  destruct (traverse_keys _ _ _ _ Hk) as [Hmap Hkeys].
  unfold latest_exp_folder. rewrite Hk.
  destruct keyed as [|[x kx] r]; [simpl in Hmap; congruence|].
  simpl max_by_key.
  destruct (max_from_first_greatest r x kx) as (k & l1 & l2 & Heq & Hb & Ha).
  exists (max_from x kx r), k, (map fst l1), (map fst l2).
  split; [reflexivity|].
  split; [rewrite <- Hmap, Heq, map_app; reflexivity|].
  split; [apply Hkeys; rewrite Heq; apply in_elt|].
  split.
  - intros d' m' Hin Hm. apply in_map_iff in Hin.
    destruct Hin as [[y ky] [<- Hin]]. cbn [fst] in Hm.
    assert (Fs.getmtime fs (OsPath.join out [y]) = Ok ky) as Hy
      by (apply Hkeys; rewrite Heq; apply in_or_app; now left).
    rewrite Hy in Hm. injection Hm as <-. eauto.
  - intros d' m' Hin Hm. apply in_map_iff in Hin.
    destruct Hin as [[y ky] [<- Hin]]. cbn [fst] in Hm.
    assert (Fs.getmtime fs (OsPath.join out [y]) = Ok ky) as Hy
      by (apply Hkeys; rewrite Heq; apply in_or_app; right; now right).
    rewrite Hy in Hm. injection Hm as <-. eauto.
Qed.

End Resolution.

(** C1, as the code has it: [/predict] does not look anything up by a
    correlation id.  It scans the output directory for directories whose name
    starts with "exp", takes the one with the greatest modification time, the
    first in listing order among equals, and serves the file [image0.jpg] of
    that directory. *)
Theorem C1_latest_listed_newest_is_served
    (E : Externals) (clApp : ClientApp.t E) (w : World) (folders : list string) :
  exp_folders (fs w) (ClientApp.output_dir clApp) = Ok folders ->
  folders <> [] ->
  exists d m before after,
    folders = (before ++ d :: after)%list
    /\ Fs.getmtime (fs w) (OsPath.join (ClientApp.output_dir clApp) [d]) = Ok m
    /\ (forall d' m', In d' before ->
          Fs.getmtime (fs w) (OsPath.join (ClientApp.output_dir clApp) [d']) = Ok m' ->
          m' < m)
    /\ (forall d' m', In d' after ->
          Fs.getmtime (fs w) (OsPath.join (ClientApp.output_dir clApp) [d']) = Ok m' ->
          m' <= m)
    /\ (forall picture,
          Fs.read (fs w)
            (OsPath.join (ClientApp.output_dir clApp) [d; "image0.jpg"]) = Ok picture ->
          predictRoute_latest E clApp w
          = (Ok (jsonify "image" (Base64.encode picture)), w)).
Proof.
  intros Hexp Hne.
  destruct (latest_exp_folder_first_newest _ _ _ Hexp Hne)
    as (d & m & before & after & Hd & Hsplit & Hm & Hb & Ha).
  exists d, m, before, after.
  split; [assumption|]. split; [assumption|]. split; [assumption|].
  split; [assumption|].
  intros picture Hread.
  unfold predictRoute_latest, bind, reading. rewrite Hexp.
  destruct folders as [|f fr]; [congruence|].
  rewrite Hd. unfold ret.
  assert (Hex : Fs.exists_ (fs w)
                  (OsPath.join (ClientApp.output_dir clApp) [d; "image0.jpg"]) = true).
  { unfold Fs.exists_. unfold Fs.read in Hread.
    destruct (Fs.lookup (fs w) _); [reflexivity | discriminate]. }
  rewrite Hex. cbn [negb]. rewrite Hread.
  unfold encodeImageIntoBase64, bind, reading, ret. now rewrite Hread.
Qed.

Lemma C1_latest_listed_newest_is_served_witness :
  exists d, predictRoute_latest (Demo.externals (Demo.detect_fails 1))
              (Demo.app (Demo.detect_fails 1))
              (mkWorld (Demo.two_runs ["exp2"; "exp3"]) [])
            = (Ok (jsonify "image" (Base64.encode d)),
               mkWorld (Demo.two_runs ["exp2"; "exp3"]) []).
Proof.
  destruct (C1_latest_listed_newest_is_served
              (Demo.externals (Demo.detect_fails 1))
              (Demo.app (Demo.detect_fails 1))
              (mkWorld (Demo.two_runs ["exp2"; "exp3"]) [])
              ["exp2"; "exp3"] eq_refl ltac:(discriminate))
    as (d & m & before & after & Hsplit & _ & _ & _ & Hserve).
  destruct before as [|b1 [|b2 [|b3 bs]]]; simpl in Hsplit.
  - injection Hsplit as <- _. eexists. apply Hserve. reflexivity.
  - injection Hsplit as _ <- _. eexists. apply Hserve. reflexivity.
  - discriminate.
  - discriminate.
Defined.

(** C1, as stated, fails: two run directories that finish within one
    timestamp tick are told apart by the order of the directory listing
    alone, and a request is answered with the artifact of another request's
    run although its own run left its artifact in place. *)
Lemma C1_tie_follows_listing_order :
  latest_exp_folder (Demo.two_runs ["exp2"; "exp3"]) Demo.out ["exp2"; "exp3"]
    = Ok "exp2"
  /\ latest_exp_folder (Demo.two_runs ["exp3"; "exp2"]) Demo.out ["exp3"; "exp2"]
    = Ok "exp3"
  /\ outcome (predictRoute (Demo.externals (Demo.detect_into "exp3" Demo.annotated))
                (Demo.post (Base64.encode Demo.picture)))
       Demo.with_concurrent_run
     = Ok (jsonify "image" (Base64.encode Demo.stale))
  /\ Fs.read
       (fs (final (predictRoute
                     (Demo.externals (Demo.detect_into "exp3" Demo.annotated))
                     (Demo.post (Base64.encode Demo.picture)))
              Demo.with_concurrent_run))
       (OsPath.join Demo.out ["exp3"; "image0.jpg"])
     = Ok Demo.annotated.
Proof. repeat split; vm_compute; reflexivity. Qed.

(** ** The detector's command line *)

Section JoinFacts.

Lemma join_cons x y r :
  Py.join " " (x :: y :: r) = x ++ " " ++ Py.join " " (y :: r).
Proof. reflexivity. Qed.

Lemma append_assoc (a b c : string) : (a ++ b) ++ c = a ++ (b ++ c).
Proof. induction a as [|ch a IH]; simpl; [reflexivity | now rewrite IH]. Qed.

(** Joining does not keep the boundary between two parts: one part with a
    blank inside gives the same string as two parts. *)
Lemma join_merges a b r :
  Py.join " " ((a ++ " " ++ b) :: r) = Py.join " " (a :: b :: r).
Proof.
  destruct r as [|y r].
  - reflexivity.
  - rewrite !join_cons. now rewrite !append_assoc.
Qed.

Lemma join_tail x l l' :
  l <> [] -> l' <> [] ->
  Py.join " " l = Py.join " " l' ->
  Py.join " " (x :: l) = Py.join " " (x :: l').
Proof.
  destruct l as [|y r]; [congruence|]. destruct l' as [|y' r']; [congruence|].
  intros _ _ H. rewrite !join_cons. now rewrite H.
Qed.

End JoinFacts.

(** C4, as the code has it: [run_yolo_detection] builds the list of fourteen
    arguments (weights path, "416", "0.5", source, output directory and the
    run name "exp" among them), joins it with single blanks into one command
    string and gives that one string to [os.system]; the string does not keep
    the boundaries of the arguments: a source with a blank in it gives the
    very command string that two separate arguments would give. *)
Theorem C4_arguments_are_joined_into_one_command
    (E : Externals) (self : ClientApp.t E) (image_path : string) (w : World) :
  commands (trace (final (ClientApp.run_yolo_detection E self image_path) w))
  = (commands (trace w)
       ++ [Py.join " "
             [ "python";
               OsPath.join (ClientApp.base_dir self) ["yolov5"; "detect.py"];
               "--weights"; ClientApp.model_path self;
               "--img"; "416";
               "--conf"; "0.5";
               "--source"; image_path;
               "--project"; ClientApp.output_dir self;
               "--name"; "exp" ]])%list
  /\ (forall a b,
        Py.join " " (ClientApp.yolo_cmd E self (a ++ " " ++ b))
        = Py.join " "
            [ "python";
              OsPath.join (ClientApp.base_dir self) ["yolov5"; "detect.py"];
              "--weights"; ClientApp.model_path self;
              "--img"; "416";
              "--conf"; "0.5";
              "--source"; a; b;
              "--project"; ClientApp.output_dir self;
              "--name"; "exp" ]).
Proof.
  split.
  - destruct (run_yolo_detection_runs E self image_path w)
      as (w' & Hrun & _ & Hc & _).
    unfold final. rewrite Hrun. exact Hc.
  - intros a b. unfold ClientApp.yolo_cmd.
    repeat (apply join_tail; [discriminate | discriminate |]).
    apply join_merges.
Qed.

(** C4, as stated, fails: the arguments reach [os.system] concatenated into
    a single command string, and a source with a blank in it is
    indistinguishable there from two arguments. *)
Lemma C4_source_with_blank_is_split :
  commands
    (trace (final (ClientApp.run_yolo_detection
                     (Demo.externals (Demo.detect_fails 1))
                     (Demo.app (Demo.detect_fails 1)) "my photo.jpg")
              Demo.installed))
  = [ "python /app/yolov5/detect.py --weights /app/yolov5/my_model.pt --img 416 --conf 0.5 --source my photo.jpg --project /app/yolov5/runs/detect --name exp" ]
  /\ Py.join " "
       (ClientApp.yolo_cmd _ (Demo.app (Demo.detect_fails 1)) "my photo.jpg")
     = Py.join " "
         [ "python"; "/app/yolov5/detect.py"; "--weights";
           "/app/yolov5/my_model.pt"; "--img"; "416"; "--conf"; "0.5";
           "--source"; "my"; "photo.jpg"; "--project";
           "/app/yolov5/runs/detect"; "--name"; "exp" ].
Proof. split; vm_compute; reflexivity. Qed.

(** ** The codec between text and files *)

(** C9: the codec is a lossless bridge.  Every byte sequence survives
    encoding and decoding unchanged; and for every text that decodes, the
    bytes are stored in the file as decoded and encoding that file gives the
    text back, character for character. *)
Theorem C9_codec_round_trip
    (E : Externals) (fileName : string) (w : World) :
  Fs.isdir (fs w) (data_file E fileName) = false ->
  (forall bytes, Base64.decode (Base64.encode bytes) = Some bytes)
  /\ (forall text bytes,
        Base64.decode text = Some bytes ->
        exists w',
          decodeImage E (JStr text) fileName w = (Ok tt, w')
          /\ Fs.read (fs w') (data_file E fileName) = Ok bytes
          /\ encodeImageIntoBase64 (data_file E fileName) w' = (Ok text, w')).
Proof.
  intros Hdir. split; [apply Base64Facts.decode_encode|].
  intros text bytes Hdec.
  assert (Hw : Fs.write (fs w) (data_file E fileName) bytes
               = Ok (Fs.mk ((data_file E fileName, Fs.File bytes (Fs.now (fs w)))
                              :: Fs.nodes (fs w)) (Fs.now (fs w)))).
  { unfold Fs.write. unfold Fs.isdir in Hdir.
    destruct (Fs.lookup (fs w) (data_file E fileName)) as [[c m|es m]|];
      [reflexivity | discriminate | reflexivity]. }
  eexists. split; [|split].
  - unfold decodeImage, updating. rewrite Hdec, Hw. reflexivity.
  - unfold Fs.read, Fs.lookup. cbn [fs Fs.nodes Fs.assoc].
    now rewrite String.eqb_refl.
  - unfold encodeImageIntoBase64, bind, reading, ret.
    unfold Fs.read, Fs.lookup. cbn [fs Fs.nodes Fs.assoc].
    rewrite String.eqb_refl.
    now rewrite (Base64Facts.encode_decode _ _ Hdec).
Qed.

Lemma C9_codec_round_trip_witness :
  exists w',
    decodeImage (Demo.externals (Demo.detect_fails 1)) (JStr "/9j/4AAQ")
      "inputImage.jpg" Demo.installed = (Ok tt, w')
    /\ Fs.read (fs w') "/app/data/inputImage.jpg" = Ok Demo.picture
    /\ encodeImageIntoBase64 "/app/data/inputImage.jpg" w' = (Ok "/9j/4AAQ", w').
Proof.
  exact (proj2 (C9_codec_round_trip (Demo.externals (Demo.detect_fails 1))
                  "inputImage.jpg" Demo.installed eq_refl)
           "/9j/4AAQ" Demo.picture eq_refl).
Defined.

(** ** [/predict], step by step *)

Section PredictFacts.
Context (E : Externals).

(** Once the [ClientApp] object is built, [predictRoute] is its [try]
    block. *)
Lemma predictRoute_after_init request w clApp w0 :
  ClientApp.__init__ E w = (Ok clApp, w0) ->
  predictRoute E request w
  = try_except (predictRoute_try E clApp request) predictRoute_except w0.
Proof. intros H. unfold predictRoute. unfold bind at 1. now rewrite H. Qed.

(** A missing weights file escapes [predictRoute]: the object is built
    outside the [try] block. *)
Lemma predictRoute_missing_weights request w :
  Fs.exists_ (fs w) (the_model_path E) = false ->
  predictRoute E request w
  = (Raise (mkExn FileNotFoundError
              ("Model file not found: " ++ the_model_path E)), w).
Proof.
  intros H. unfold predictRoute. unfold bind at 1.
  now rewrite (init_missing E w H).
Qed.

(** The two validation answers of the [try] block. *)
Lemma predictRoute_try_not_json clApp request w :
  is_json request = false ->
  predictRoute_try E clApp request w
  = (Ok (with_status (jsonify "error" "Request must be JSON") 400), w).
Proof. intros H. unfold predictRoute_try. now rewrite H. Qed.

Lemma predictRoute_try_no_image clApp request w image :
  is_json request = true ->
  match request_json request with
  | Ok j => get j "image"
  | Raise e => Raise e
  end = Ok image ->
  truthy image = false ->
  predictRoute_try E clApp request w
  = (Ok (with_status (jsonify "error" "No image provided") 400), w).
Proof.
  intros Hj Hg Ht. unfold predictRoute_try, bind. now rewrite Hj, Hg, Ht.
Qed.

(** With an image in the request and the image stored, the [try] block runs
    the detector once and goes on to look for the latest run directory,
    whatever status the detector returned. *)
Lemma predictRoute_try_detects clApp request w image w1 :
  is_json request = true ->
  match request_json request with
  | Ok j => get j "image"
  | Raise e => Raise e
  end = Ok image ->
  truthy image = true ->
  decodeImage E image (ClientApp.filename clApp) w = (Ok tt, w1) ->
  exists w2,
    ClientApp.run_yolo_detection E clApp
      (OsPath.join (dirname_file E) ["data"; ClientApp.filename clApp]) w1
    = (Ok tt, w2)
    /\ predictRoute_try E clApp request w = predictRoute_latest E clApp w2.
Proof.
  intros Hj Hg Ht Hd.
  destruct (run_yolo_detection_runs E clApp
              (OsPath.join (dirname_file E) ["data"; ClientApp.filename clApp]) w1)
    as (w2 & Hrun & _).
  exists w2. split; [assumption|].
  unfold predictRoute_try. rewrite Hj. cbn [negb].
  unfold bind at 1. rewrite Hg, Ht. cbn [negb].
  unfold bind at 1. rewrite Hd.
  unfold bind at 1. rewrite Hrun. reflexivity.
Qed.

Lemma run_yolo_detection_attempts (self : ClientApp.t E) image_path :
  keeps see_attempts (ClientApp.run_yolo_detection E self image_path).
Proof.
  intros w. destruct (run_yolo_detection_runs E self image_path w)
    as (w' & -> & _ & _ & H). exact H.
Qed.

Lemma handler_keeps X (obs : World -> X) e :
  deaf_to_print obs -> keeps obs (predictRoute_except e).
Proof. intros H. unfold predictRoute_except. keeps_auto. Qed.

Lemma predictRoute_try_attempts clApp request :
  keeps see_attempts (predictRoute_try E clApp request).
Proof.
  unfold predictRoute_try.
  destruct (negb (is_json request)); [auto with keeps|].
  apply keeps_bind; [apply keeps_pure|intros image].
  destruct (negb (truthy image)); [auto with keeps|].
  apply keeps_bind; [apply decode_keeps; auto with keeps|intros _].
  apply keeps_bind; [apply run_yolo_detection_attempts|intros _].
  apply latest_keeps.
Qed.

(** Every call of [predictRoute] that finds the weights file attempts the
    load once more: the loading block of [_load_model] is run exactly once,
    whatever the request and whatever happens afterwards. *)
Lemma predictRoute_attempts_load_once request w :
  Fs.exists_ (fs w) (the_model_path E) = true ->
  see_attempts (final (predictRoute E request) w) = S (see_attempts w).
Proof.
  intros H. unfold final, predictRoute. unfold bind at 1.
  pose proof (init_attempts E w H) as L.
  destruct (ClientApp.__init__ E w) as [[clApp|e] w0]; cbn [snd] in *;
    [|assumption].
  rewrite <- L.
  apply (keeps_try see_attempts); [apply predictRoute_try_attempts|].
  intros e. apply (handler_keeps _ see_attempts). auto with keeps.
Qed.

(** What [predictRoute] answers once detection has run: the resolution of
    the latest image decides, and nothing but a [print] happens after. *)
Lemma predictRoute_resolves request w clApp w0 image w1 :
  ClientApp.__init__ E w = (Ok clApp, w0) ->
  is_json request = true ->
  match request_json request with
  | Ok j => get j "image"
  | Raise e => Raise e
  end = Ok image ->
  truthy image = true ->
  decodeImage E image (ClientApp.filename clApp) w0 = (Ok tt, w1) ->
  predictRoute E request w
  = try_except (predictRoute_latest E clApp) predictRoute_except
      (final (ClientApp.run_yolo_detection E clApp
                (OsPath.join (dirname_file E) ["data"; ClientApp.filename clApp]))
         w1).
Proof.
  intros Hi Hj Hg Ht Hd.
  rewrite (predictRoute_after_init _ _ _ _ Hi).
  destruct (predictRoute_try_detects clApp request w0 image w1 Hj Hg Ht Hd)
    as (w2 & Hrun & Htry).
  unfold final. rewrite Hrun. cbn [snd].
  unfold try_except. now rewrite Htry.
Qed.

(** The one shell command of such a call. *)
Lemma predictRoute_commands request w clApp w0 image w1 :
  ClientApp.__init__ E w = (Ok clApp, w0) ->
  is_json request = true ->
  match request_json request with
  | Ok j => get j "image"
  | Raise e => Raise e
  end = Ok image ->
  truthy image = true ->
  decodeImage E image (ClientApp.filename clApp) w0 = (Ok tt, w1) ->
  see_commands (final (predictRoute E request) w)
  = (see_commands w
       ++ [yolo_cmd_str E clApp
             (OsPath.join (dirname_file E) ["data"; ClientApp.filename clApp])])%list.
Proof.
  intros Hi Hj Hg Ht Hd. unfold final at 1.
  rewrite (predictRoute_resolves request w clApp w0 image w1 Hi Hj Hg Ht Hd).
  destruct (run_yolo_detection_runs E clApp
              (OsPath.join (dirname_file E) ["data"; ClientApp.filename clApp]) w1)
    as (w2 & Hrun & _ & Hc & _).
  unfold final. rewrite Hrun. cbn [snd].
  rewrite (keeps_try see_commands _ (predictRoute_latest E clApp)
             predictRoute_except
             (latest_keeps E _ see_commands clApp)
             (fun e => handler_keeps _ see_commands e commands_deaf) w2).
  rewrite Hc. f_equal.
  pose proof (decode_keeps E _ see_commands image (ClientApp.filename clApp)
                commands_trace_only w0) as K1.
  rewrite Hd in K1. cbn [snd] in K1. rewrite K1.
  pose proof (init_commands E w) as K0.
  rewrite Hi in K0. exact K0.
Qed.

End PredictFacts.

(** ** Claims about the routes *)

(** C6, as the code has it: once detection has run, a missing artifact is
    answered with an error payload and status 500, in three ways: the output
    directory cannot be listed (the exception's text is the message), no
    directory named "exp..." is there ("No experiment folders found"), or the
    latest such directory has no [image0.jpg] ("Predicted image not found").
    The answer is a plain message; there is no error class of its own. *)
Theorem C6_missing_artifact_answers_500
    (E : Externals) (request : Request) (w : World)
    (clApp : ClientApp.t E) (w0 : World) (image : json) (w1 : World) :
  ClientApp.__init__ E w = (Ok clApp, w0) ->
  is_json request = true ->
  match request_json request with
  | Ok j => get j "image"
  | Raise e => Raise e
  end = Ok image ->
  truthy image = true ->
  decodeImage E image (ClientApp.filename clApp) w0 = (Ok tt, w1) ->
  let ran :=
    final (ClientApp.run_yolo_detection E clApp
             (OsPath.join (dirname_file E) ["data"; ClientApp.filename clApp])) w1 in
  let out := ClientApp.output_dir clApp in
  (forall e, exp_folders (fs ran) out = Raise e ->
     predictRoute E request w
     = (Ok (with_status (jsonify "error" (str e)) 500),
        mkWorld (fs ran) (trace ran ++ [Print (str e)])))
  /\ (exp_folders (fs ran) out = Ok [] ->
      predictRoute E request w
      = (Ok (with_status (jsonify "error" "No experiment folders found") 500), ran))
  /\ (forall folders d,
        exp_folders (fs ran) out = Ok folders -> folders <> [] ->
        latest_exp_folder (fs ran) out folders = Ok d ->
        Fs.exists_ (fs ran) (OsPath.join out [d; "image0.jpg"]) = false ->
        predictRoute E request w
        = (Ok (with_status (jsonify "error" "Predicted image not found") 500), ran)).
Proof.
  intros Hi Hj Hg Ht Hd ran out.
  rewrite (predictRoute_resolves E request w clApp w0 image w1 Hi Hj Hg Ht Hd).
  fold ran. split; [|split].
  - intros e He.
    unfold try_except, predictRoute_latest, bind at 1, reading. fold out.
    rewrite He. reflexivity.
  - intros He.
    unfold try_except, predictRoute_latest, bind at 1, reading. fold out.
    rewrite He. reflexivity.
  - intros folders d He Hne Hl Hx.
    unfold try_except, predictRoute_latest, bind, reading. fold out.
    rewrite He. destruct folders as [|f fr]; [congruence|].
    rewrite Hl, Hx. reflexivity.
Qed.

Lemma C6_missing_artifact_answers_500_witness :
  predictRoute (Demo.externals (Demo.detect_fails 256))
    (Demo.post "/9j/4AAQ") Demo.installed
  = (Ok (with_status (jsonify "error" "No experiment folders found") 500),
     final (predictRoute (Demo.externals (Demo.detect_fails 256))
              (Demo.post "/9j/4AAQ")) Demo.installed).
Proof.
  refine (eq_trans
            (proj1 (proj2
               (C6_missing_artifact_answers_500
                  (Demo.externals (Demo.detect_fails 256))
                  (Demo.post "/9j/4AAQ") Demo.installed
                  _ _ (JStr "/9j/4AAQ") _ _ eq_refl eq_refl eq_refl _)) _) _).
  - vm_compute. reflexivity.
  - vm_compute. reflexivity.
  - vm_compute. reflexivity.
  - vm_compute. reflexivity.
Defined.

(** C6, as stated, fails: a run that exits with an error and leaves no
    directory at all is answered with status 200 and the image of an older
    run. *)
Lemma C6_failed_run_serves_stale_artifact :
  outcome (predictRoute (Demo.externals (Demo.detect_fails 256))
             (Demo.post "/9j/4AAQ")) Demo.with_stale_run
  = Ok (mkResponse (Json (JObj [("image", JStr (Base64.encode Demo.stale))])) 200)
  /\ exp_folders
       (fs (final (predictRoute (Demo.externals (Demo.detect_fails 256))
                     (Demo.post "/9j/4AAQ")) Demo.with_stale_run))
       Demo.out
     = exp_folders (fs Demo.with_stale_run) Demo.out.
Proof. split; vm_compute; reflexivity. Qed.

(** C7, as the code has it: the input image of every request is stored
    under the one file name "inputImage.jpg", and the detector is pointed at
    the one path [<dir>/data/inputImage.jpg]; nothing of the request enters
    either. *)
Theorem C7_input_image_path_is_fixed
    (E : Externals) (request : Request) (w : World)
    (clApp : ClientApp.t E) (w0 : World) (image : json) (w1 : World) :
  ClientApp.__init__ E w = (Ok clApp, w0) ->
  is_json request = true ->
  match request_json request with
  | Ok j => get j "image"
  | Raise e => Raise e
  end = Ok image ->
  truthy image = true ->
  decodeImage E image "inputImage.jpg" w0 = (Ok tt, w1) ->
  ClientApp.filename clApp = "inputImage.jpg"
  /\ (forall text bytes,
        image = JStr text -> Base64.decode text = Some bytes ->
        Fs.read (fs w1) (data_file E "inputImage.jpg") = Ok bytes)
  /\ commands (trace (final (predictRoute E request) w))
     = (commands (trace w)
          ++ [yolo_cmd_str E clApp
                (OsPath.join (dirname_file E) ["data"; "inputImage.jpg"])])%list.
Proof.
  intros Hi Hj Hg Ht Hd.
  destruct (init_attributes E w clApp w0 Hi) as (_ & Hname & _ & _).
  split; [assumption|]. split.
  - intros text bytes -> Hdec. revert Hd.
    unfold decodeImage, updating. rewrite Hdec.
    destruct (Fs.write (fs w0) (data_file E "inputImage.jpg") bytes)
      as [fs'|e] eqn:Hw; [|discriminate].
    intros [= <-]. cbn [fs]. revert Hw. unfold Fs.write.
    destruct (Fs.lookup (fs w0) (data_file E "inputImage.jpg")) as [[c m|es m]|];
      try discriminate; intros [= <-];
      unfold Fs.read, Fs.lookup; cbn [Fs.nodes Fs.assoc];
      now rewrite String.eqb_refl.
  - rewrite <- Hname in Hd.
    pose proof (predictRoute_commands E request w clApp w0 image w1
                  Hi Hj Hg Ht Hd) as Hc.
    rewrite Hname in Hc. exact Hc.
Qed.

Lemma C7_input_image_path_is_fixed_witness :
  commands (trace (final (predictRoute (Demo.externals (Demo.detect_fails 256))
                            (Demo.post "/9j/4AAQ")) Demo.installed))
  = (commands (trace Demo.installed)
       ++ [yolo_cmd_str _ (Demo.app (Demo.detect_fails 256))
             "/app/data/inputImage.jpg"])%list.
Proof.
  refine (proj2 (proj2
            (C7_input_image_path_is_fixed
               (Demo.externals (Demo.detect_fails 256))
               (Demo.post "/9j/4AAQ") Demo.installed
               (Demo.app (Demo.detect_fails 256)) _ (JStr "/9j/4AAQ") _
               _ eq_refl eq_refl eq_refl _))).
  - vm_compute. reflexivity.
  - vm_compute. reflexivity.
Defined.

(** C7, as stated, fails: two different requests write their input images
    to the same path, the second over the first, and the detector is given
    the same source both times. *)
Lemma C7_two_requests_share_one_input_file :
  let E := Demo.externals (Demo.detect_fails 256) in
  let first := final (predictRoute E (Demo.post "/9j/4AAQ")) Demo.installed in
  let second := final (predictRoute E (Demo.post "/9j/4So=")) first in
  Demo.post "/9j/4AAQ" <> Demo.post "/9j/4So="
  /\ Fs.read (fs first) "/app/data/inputImage.jpg" = Ok Demo.picture
  /\ Fs.read (fs second) "/app/data/inputImage.jpg" = Ok Demo.annotated
  /\ commands (trace second)
     = [ yolo_cmd_str E (Demo.app (Demo.detect_fails 256)) "/app/data/inputImage.jpg";
         yolo_cmd_str E (Demo.app (Demo.detect_fails 256)) "/app/data/inputImage.jpg" ].
Proof.
  cbv zeta. split; [discriminate|].
  repeat split; vm_compute; reflexivity.
Qed.




(** ** Where the code and its own documentation part ways *)

(** C2 (the code loads again for every request): [_load_model] is
    documented "Cache model for faster inference" and [/warmup] "Pre-load
    model before first request", yet every route builds a fresh [ClientApp],
    whose [_load_model] runs its loading block again: after a warm-up and two
    predictions the load has been attempted three times, when the block
    returns a model and when it raises alike. *)
Theorem C2_load_is_attempted_on_every_request :
  let E := Demo.externals (Demo.detect_into "exp" Demo.annotated) in
  let request := Demo.post "/9j/4AAQ" in
  let attempts_after (w : World) :=
    let warmed := final (warmup E) w in
    let first := final (predictRoute E request) warmed in
    let second := final (predictRoute E request) first in
    [ load_attempts (trace w); load_attempts (trace warmed);
      load_attempts (trace first); load_attempts (trace second) ] in
  attempts_after Demo.installed = [0; 1; 2; 3]%nat
  /\ attempts_after Demo.corrupt = [0; 1; 2; 3]%nat.
Proof. cbv zeta. split; vm_compute; reflexivity. Qed.

(** C3 (the failure is swallowed): the detector ends with status 256;
    [run_yolo_detection] raises its [RuntimeError] inside its own [try],
    prints it and returns normally, and [/predict] goes on to resolve a
    result and answers 200. *)
Theorem C3_nonzero_status_is_printed_not_raised :
  let E := Demo.externals (Demo.detect_fails 256) in
  let run :=
    ClientApp.run_yolo_detection E (Demo.app (Demo.detect_fails 256))
      "/app/data/inputImage.jpg" in
  outcome run Demo.with_stale_run = Ok tt
  /\ trace (final run Demo.with_stale_run)
     = [ OsSystem (yolo_cmd_str E (Demo.app (Demo.detect_fails 256))
                     "/app/data/inputImage.jpg");
         Print "Error running YOLO detection: YOLO detection failed with code 256" ]
  /\ outcome (predictRoute E (Demo.post "/9j/4AAQ")) Demo.with_stale_run
     = Ok (jsonify "image" (Base64.encode Demo.stale)).
Proof. cbv zeta. repeat split; vm_compute; reflexivity. Qed.

(** [run_yolo_detection] returns normally whatever the detector's status. *)
Lemma run_yolo_detection_never_raises
    (E : Externals) (self : ClientApp.t E) (image_path : string) (w : World) :
  outcome (ClientApp.run_yolo_detection E self image_path) w = Ok tt.
Proof.
  destruct (run_yolo_detection_runs E self image_path w) as (w' & Hrun & _).
  unfold outcome. now rewrite Hrun.
Qed.

(** C5 (the status does not reflect the load): with a weights file that
    does not deserialise, [/warmup] answers "Model loaded" with status 200
    although the object it built holds no model; with no weights file, the
    [FileNotFoundError] escapes the view instead of becoming a failure
    status. *)
Theorem C5_warmup_reports_loaded_without_model :
  let E := Demo.externals (Demo.detect_fails 256) in
  outcome (warmup E) Demo.corrupt = Ok (jsonify "status" "Model loaded")
  /\ (exists clApp, outcome (ClientApp.__init__ E) Demo.corrupt = Ok clApp
                    /\ ClientApp.model clApp = None)
  /\ outcome (warmup E) Demo.no_weights
     = Raise (mkExn FileNotFoundError
                "Model file not found: /app/yolov5/my_model.pt").
Proof.
  cbv zeta. split; [vm_compute; reflexivity|]. split.
  - eexists. split; vm_compute; reflexivity.
  - vm_compute. reflexivity.
Qed.

(** C8 (an unhandled failure): [predictRoute] builds its [ClientApp]
    before the [try] block, so with no weights file a request that is not
    JSON ends in an escaping [FileNotFoundError], not in the 400 answer;
    [predictLive] builds it inside its [try] and answers 500. *)
Theorem C8_predict_escapes_when_weights_are_missing :
  let E := Demo.externals (Demo.detect_fails 256) in
  outcome (predictRoute E Demo.not_json) Demo.no_weights
  = Raise (mkExn FileNotFoundError
             "Model file not found: /app/yolov5/my_model.pt")
  /\ outcome (predictLive E) Demo.no_weights
     = Ok (with_status
             (jsonify "error" "Model file not found: /app/yolov5/my_model.pt") 500)
  /\ outcome (predictRoute E Demo.not_json) Demo.installed
     = Ok (with_status (jsonify "error" "Request must be JSON") 400).
Proof. cbv zeta. repeat split; vm_compute; reflexivity. Qed.

(** With the [ClientApp] object built, the two validation answers and the
    success answer of [/predict] are as the interface describes them. *)
Lemma predictRoute_answers
    (E : Externals) (request : Request) (w : World)
    (clApp : ClientApp.t E) (w0 : World) :
  ClientApp.__init__ E w = (Ok clApp, w0) ->
  (is_json request = false ->
   predictRoute E request w
   = (Ok (with_status (jsonify "error" "Request must be JSON") 400), w0))
  /\ (forall fields,
        is_json request = true ->
        body request = Some (JObj fields) ->
        Fs.assoc "image" fields = None ->
        predictRoute E request w
        = (Ok (with_status (jsonify "error" "No image provided") 400), w0)).
Proof.
  intros Hi. rewrite (predictRoute_after_init E request w clApp w0 Hi).
  split.
  - intros Hj. apply run_try_ok. now apply predictRoute_try_not_json.
  - intros fields Hj Hb Hf. apply run_try_ok.
    apply (predictRoute_try_no_image E clApp request w0 JNull Hj);
      [|reflexivity].
    unfold request_json. rewrite Hb. unfold get. now rewrite Hf.
Qed.

(** * Further properties of [app.py] *)

(** ** [run_yolo_detection] *)

(** [run_yolo_detection] in full: the command string is run once, the file
    system is what the command leaves, the method returns normally, and a
    line naming the status is printed exactly when the status is not zero. *)
Theorem run_yolo_detection_effects
    (E : Externals) (self : ClientApp.t E) (image_path : string) (w : World) :
  let command := yolo_cmd_str E self image_path in
  let code := fst (os_system E command (fs w)) in
  ClientApp.run_yolo_detection E self image_path w
  = (Ok tt,
     mkWorld (snd (os_system E command (fs w)))
       (if code =? 0 then trace w ++ [OsSystem command]
        else (trace w ++ [OsSystem command])
               ++ [Print ("Error running YOLO detection: "
                          ++ "YOLO detection failed with code "
                          ++ str_of_int code)])%list).
Proof.
  cbv zeta. unfold ClientApp.run_yolo_detection. cbv zeta.
  fold (yolo_cmd_str E self image_path).
  unfold try_except, bind, emit, raise, ret, print. cbn [fs trace].
  destruct (os_system E (yolo_cmd_str E self image_path) (fs w)) as [c fs'].
  cbn [fst snd]. destruct (c =? 0); reflexivity.
Qed.

(** ** The run directories that [/predict] considers *)

(** The candidates are exactly the listed names that start with "exp" and
    are directories: any such directory counts (an "export" as well), a file
    named "exp..." does not. *)
Theorem exp_folders_selects (fs : Fs.t) (output_dir : string) (names : list string) :
  Fs.listdir fs output_dir = Ok names ->
  exists folders,
    exp_folders fs output_dir = Ok folders
    /\ forall d,
         In d folders
         <-> In d names
             /\ startswith d "exp" = true
             /\ Fs.isdir fs (OsPath.join output_dir [d]) = true.
Proof.
  intros Hl. unfold exp_folders. rewrite Hl. eexists. split; [reflexivity|].
  intros d. rewrite filter_In, andb_true_iff. reflexivity.
Qed.

Lemma exp_folders_selects_witness :
  exists folders,
    exp_folders Demo2.mixed Demo.out = Ok folders
    /\ (In "export" folders /\ ~ In "exp7" folders /\ ~ In "old" folders).
Proof.
  destruct (exp_folders_selects Demo2.mixed Demo.out
              ["exp"; "export"; "old"; "exp7"; "exp9"] eq_refl)
    as (folders & Hf & Hin).
  exists folders. split; [exact Hf|]. split; [|split].
  - apply Hin. split; [simpl; tauto|]. split; reflexivity.
  - intros H. apply Hin in H. destruct H as (_ & _ & H). discriminate H.
  - intros H. apply Hin in H. destruct H as (_ & H & _). discriminate H.
Defined.

Section LatestFacts.



End LatestFacts.



(** ** Building a [ClientApp] *)

Section SplitFacts.

Lemma cut_sep_free t :
  OsPath.sep_free t = true -> OsPath.cut_at_last_sep t = ("", t).
Proof.
  induction t as [|c t IH]; simpl; [reflexivity|].
  intros H. apply andb_true_iff in H. destruct H as [Hc Ht].
  apply negb_true_iff in Hc. rewrite (IH Ht), Hc. reflexivity.
Qed.

Lemma cut_app s t :
  OsPath.sep_free t = true ->
  OsPath.cut_at_last_sep (s ++ t)
  = (fst (OsPath.cut_at_last_sep s), snd (OsPath.cut_at_last_sep s) ++ t).
Proof.
  intros Ht. induction s as [|c s IH]; simpl.
  - now rewrite (cut_sep_free t Ht).
  - rewrite IH. destruct (OsPath.cut_at_last_sep s) as [h t0]. cbn [fst snd].
    destruct (String.eqb h ""); [destruct (Ascii.eqb c "/")|]; reflexivity.
Qed.

Lemma split_tail_app s t :
  OsPath.sep_free t = true ->
  snd (OsPath.split (s ++ t)) = snd (OsPath.cut_at_last_sep s) ++ t.
Proof.
  intros Ht. unfold OsPath.split. rewrite (cut_app s t Ht). reflexivity.
Qed.

Lemma join2_ends a name :
  OsPath.sep_free name = true -> name <> "" ->
  exists s, OsPath.join2 a name = s ++ name.
Proof.
  intros Hf Hne. unfold OsPath.join2.
  assert (Hs : startswith name "/" = false).
  { destruct name as [|c r]; [congruence|].
    simpl in Hf. apply andb_true_iff in Hf. destruct Hf as [Hc _].
    apply negb_true_iff in Hc. unfold startswith. cbn [String.prefix].
    destruct (ascii_dec "/" c) as [<-|Hd]; [|reflexivity].
    now rewrite Ascii.eqb_refl in Hc. }
  rewrite Hs. destruct (String.eqb a "" || endswith_sep a).
  - now exists a.
  - exists (a ++ "/"). now rewrite append_assoc.
Qed.

Lemma append_is_dot x name : name <> "" -> name <> "." -> x ++ name <> ".".
Proof.
  intros Hne Hdot H. destruct x as [|c x]; simpl in H; [congruence|].
  injection H as _ H. destruct x; simpl in H; [congruence | discriminate].
Qed.

Lemma append_is_empty x name : name <> "" -> x ++ name <> "".
Proof. intros Hne H. destruct x; simpl in H; [congruence | discriminate]. Qed.

(** The last component of a path built by [os.path.join] with a plain name
    at the end is neither empty nor ".". *)
Lemma join2_tail a name :
  OsPath.sep_free name = true -> name <> "" -> name <> "." ->
  snd (OsPath.split (OsPath.join2 a name)) <> ""
  /\ snd (OsPath.split (OsPath.join2 a name)) <> ".".
Proof.
  intros Hf Hne Hdot. destruct (join2_ends a name Hf Hne) as [s ->].
  rewrite (split_tail_app s name Hf).
  split; [now apply append_is_empty | now apply append_is_dot].
Qed.

Lemma cut_length p :
  (String.length (fst (OsPath.cut_at_last_sep p))
   + String.length (snd (OsPath.cut_at_last_sep p)) = String.length p)%nat.
Proof.
  induction p as [|c p IH]; simpl; [reflexivity|].
  destruct (OsPath.cut_at_last_sep p) as [h t]. cbn [fst snd] in *.
  destruct (String.eqb h "") eqn:Hh.
  - apply String.eqb_eq in Hh. subst h. simpl in IH.
    destruct (Ascii.eqb c "/"); simpl; lia.
  - simpl. lia.
Qed.

Lemma rstrip_length s : (String.length (OsPath.rstrip_sep s) <= String.length s)%nat.
Proof.
  induction s as [|c s IH]; simpl; [lia|].
  destruct (String.eqb (OsPath.rstrip_sep s) "" && Ascii.eqb c "/"); simpl; lia.
Qed.

(** The head of a path with a last component is shorter than the path. *)
Lemma split_head_shorter p :
  snd (OsPath.split p) <> "" ->
  (String.length (fst (OsPath.split p)) < String.length p)%nat.
Proof.
  unfold OsPath.split. pose proof (cut_length p) as Hc.
  destruct (OsPath.cut_at_last_sep p) as [h t]. cbn [fst snd] in *.
  intros Ht. pose proof (rstrip_length h).
  assert (0 < String.length t)%nat by (destruct t; [congruence | simpl; lia]).
  destruct (String.eqb (OsPath.rstrip_sep h) ""); lia.
Qed.

Lemma split_head_no_longer p :
  (String.length (fst (OsPath.split p)) <= String.length p)%nat.
Proof.
  unfold OsPath.split. pose proof (cut_length p) as Hc.
  destruct (OsPath.cut_at_last_sep p) as [h t]. cbn [fst snd] in *.
  pose proof (rstrip_length h).
  destruct (String.eqb (OsPath.rstrip_sep h) ""); lia.
Qed.

End SplitFacts.

Section MakedirsFacts.

Lemma mkdir_isdir fs p fs' : Fs.mkdir fs p = Ok fs' -> Fs.isdir fs' p = true.
Proof.
  unfold Fs.mkdir. destruct (Fs.lookup fs p); [discriminate|].
  destruct (OsPath.split p) as [head tail].
  destruct (Fs.lookup fs _) as [[c m|es m]|]; try discriminate.
  intros [= <-]. unfold Fs.isdir, Fs.lookup. cbn [Fs.nodes Fs.assoc].
  now rewrite String.eqb_refl.
Qed.

Lemma mkdir_keeps_files fs p fs' q c m :
  Fs.mkdir fs p = Ok fs' ->
  Fs.lookup fs q = Some (Fs.File c m) -> Fs.lookup fs' q = Some (Fs.File c m).
Proof.
  unfold Fs.mkdir. destruct (Fs.lookup fs p) eqn:Hp; [discriminate|].
  destruct (OsPath.split p) as [head tail].
  set (parent := if String.eqb head "" then "." else head).
  destruct (Fs.lookup fs parent) as [[c' m'|es m']|] eqn:Hparent;
    try discriminate.
  intros [= <-] Hq. unfold Fs.lookup. cbn [Fs.nodes Fs.assoc].
  destruct (String.eqb q p) eqn:Hqp.
  { apply String.eqb_eq in Hqp. subst q. congruence. }
  destruct (String.eqb q parent) eqn:Hqh; [|exact Hq].
  apply String.eqb_eq in Hqh. subst q. congruence.
Qed.

Lemma mkdir_keeps_dirs fs p fs' q :
  Fs.mkdir fs p = Ok fs' -> Fs.isdir fs q = true -> Fs.isdir fs' q = true.
Proof.
  unfold Fs.mkdir. destruct (Fs.lookup fs p) eqn:Hp; [discriminate|].
  destruct (OsPath.split p) as [head tail].
  set (parent := if String.eqb head "" then "." else head).
  destruct (Fs.lookup fs parent) as [[c' m'|es m']|] eqn:Hparent;
    try discriminate.
  intros [= <-] Hq. unfold Fs.isdir, Fs.lookup. cbn [Fs.nodes Fs.assoc].
  destruct (String.eqb q p); [reflexivity|].
  destruct (String.eqb q parent); [reflexivity | exact Hq].
Qed.

Lemma grown_refl fs : grown fs fs.
Proof. split; auto. Qed.

Lemma grown_trans fs1 fs2 fs3 : grown fs1 fs2 -> grown fs2 fs3 -> grown fs1 fs3.
Proof. intros [F1 D1] [F2 D2]. split; auto. Qed.

Lemma mkdir_exist_ok_grown fs p fs' :
  Fs.mkdir_exist_ok fs p = Ok fs' -> grown fs fs' /\ Fs.isdir fs' p = true.
Proof.
  unfold Fs.mkdir_exist_ok. destruct (Fs.mkdir fs p) as [fs2|e] eqn:Hm.
  - intros [= <-]. split; [split|].
    + intros q c m. now apply (mkdir_keeps_files _ _ _ _ _ _ Hm).
    + intros q. now apply (mkdir_keeps_dirs _ _ _ _ Hm).
    + now apply (mkdir_isdir _ _ _ Hm).
  - destruct (Fs.isdir fs p) eqn:Hd; [|discriminate].
    intros [= <-]. split; [apply grown_refl | exact Hd].
Qed.

Lemma makedirs_rec_grown fuel :
  forall fs name fs',
    Fs.makedirs_rec fuel fs name = Some (Ok fs') -> grown fs fs'.
Proof.
  induction fuel as [|fuel IH]; intros fs name fs'; simpl; [discriminate|].
  destruct (OsPath.split name) as [head0 tail0].
  destruct (if String.eqb tail0 "" then OsPath.split head0 else (head0, tail0))
    as [head tail].
  destruct (negb (String.eqb head "") && negb (String.eqb tail "")
            && negb (Fs.exists_ fs head)).
  - destruct (Fs.makedirs_rec fuel fs head) as [[fs1|e]|] eqn:Hrec;
      [| |discriminate].
    + specialize (IH _ _ _ Hrec).
      destruct (String.eqb tail ".").
      * now intros [= <-].
      * intros [= H]. apply mkdir_exist_ok_grown in H.
        exact (grown_trans _ _ _ IH (proj1 H)).
    + destruct (kind e); try discriminate.
      destruct (String.eqb tail ".").
      * intros [= <-]. apply grown_refl.
      * intros [= H]. now apply mkdir_exist_ok_grown in H.
  - intros [= H]. now apply mkdir_exist_ok_grown in H.
Qed.

Lemma makedirs_rec_isdir fuel fs name fs' :
  snd (OsPath.split name) <> "" -> snd (OsPath.split name) <> "." ->
  Fs.makedirs_rec fuel fs name = Some (Ok fs') -> Fs.isdir fs' name = true.
Proof.
  destruct fuel as [|fuel]; simpl; [discriminate|].
  destruct (OsPath.split name) as [head0 tail0]. cbn [snd].
  intros Hne Hdot.
  destruct (String.eqb tail0 "") eqn:He;
    [apply String.eqb_eq in He; congruence|].
  destruct (String.eqb tail0 ".") eqn:Hd;
    [apply String.eqb_eq in Hd; congruence|].
  rewrite ?He.
  destruct (negb (String.eqb head0 "") && negb false
            && negb (Fs.exists_ fs head0)).
  - destruct (Fs.makedirs_rec fuel fs head0) as [[fs1|e]|]; [| |discriminate].
    + intros [= H]. now apply mkdir_exist_ok_grown in H.
    + destruct (kind e); try discriminate.
      intros [= H]. now apply mkdir_exist_ok_grown in H.
  - intros [= H]. now apply mkdir_exist_ok_grown in H.
Qed.

(** The fuel that [makedirs] gives its recursion is never used up. *)
Lemma makedirs_rec_fuel fuel :
  forall fs name,
    (String.length name < fuel)%nat -> Fs.makedirs_rec fuel fs name <> None.
Proof.
  induction fuel as [|fuel IH]; intros fs name Hlen; [lia|].
  cbn [Fs.makedirs_rec].
  pose proof (split_head_no_longer name) as H0.
  pose proof (split_head_shorter name) as H0'.
  destruct (OsPath.split name) as [head0 tail0]. cbn [fst snd] in *.
  assert (Hhead :
    forall head tail,
      (if String.eqb tail0 "" then OsPath.split head0 else (head0, tail0))
      = (head, tail) ->
      String.eqb tail "" = false ->
      (String.length head < fuel)%nat).
  { intros head tail Heq Ht. destruct (String.eqb tail0 "") eqn:He.
    - pose proof (split_head_shorter head0) as H1. rewrite Heq in H1.
      cbn [fst snd] in H1.
      assert (tail <> "") by (intros ->; discriminate).
      specialize (H1 ltac:(assumption)). lia.
    - injection Heq as <- <-.
      assert (tail0 <> "") by (intros ->; discriminate).
      specialize (H0' ltac:(assumption)). lia. }
  destruct (if String.eqb tail0 "" then OsPath.split head0 else (head0, tail0))
    as [head tail].
  destruct (String.eqb tail "") eqn:Ht.
  - rewrite andb_false_r. cbn [andb]. discriminate.
  - destruct (negb (String.eqb head "") && negb false
              && negb (Fs.exists_ fs head)); [|discriminate].
    specialize (IH fs head (Hhead head tail eq_refl Ht)).
    destruct (Fs.makedirs_rec fuel fs head) as [[fs1|e]|]; [| |congruence].
    + destruct (String.eqb tail "."); discriminate.
    + destruct (kind e); try discriminate;
        destruct (String.eqb tail "."); discriminate.
Qed.

Lemma makedirs_grown fs p fs' : Fs.makedirs fs p = Ok fs' -> grown fs fs'.
Proof.
  unfold Fs.makedirs. destruct (Fs.isdir fs p).
  - intros [= <-]. apply grown_refl.
  - destruct (Fs.makedirs_rec _ fs p) as [[fs1|e]|] eqn:Hrec; try discriminate.
    intros [= <-]. exact (makedirs_rec_grown _ _ _ _ Hrec).
Qed.

Lemma makedirs_isdir fs p fs' :
  snd (OsPath.split p) <> "" -> snd (OsPath.split p) <> "." ->
  Fs.makedirs fs p = Ok fs' -> Fs.isdir fs' p = true.
Proof.
  intros Hne Hdot. unfold Fs.makedirs. destruct (Fs.isdir fs p) eqn:Hd.
  - now intros [= <-].
  - destruct (Fs.makedirs_rec _ fs p) as [[fs1|e]|] eqn:Hrec; try discriminate.
    intros [= <-]. exact (makedirs_rec_isdir _ _ _ _ Hne Hdot Hrec).
Qed.

Lemma makedirs_existing fs p :
  Fs.isdir fs p = true -> Fs.makedirs fs p = Ok fs.
Proof. intros H. unfold Fs.makedirs. now rewrite H. Qed.

(** A regular file in the place of the directory, its parent being there:
    [makedirs] fails with [FileExistsError] and changes nothing. *)
Lemma makedirs_blocked fs p c m :
  Fs.lookup fs p = Some (Fs.File c m) ->
  snd (OsPath.split p) <> "" ->
  Fs.exists_ fs (fst (OsPath.split p)) = true ->
  Fs.makedirs fs p = Raise (Fs.EEXIST p).
Proof.
  intros Hl Hne Hx. unfold Fs.makedirs, Fs.isdir. rewrite Hl.
  cbn [Fs.makedirs_rec].
  destruct (OsPath.split p) as [head0 tail0]. cbn [fst snd] in *.
  destruct (String.eqb tail0 "") eqn:He;
    [apply String.eqb_eq in He; congruence|].
  rewrite ?He, Hx. cbn [negb]. rewrite andb_false_r.
  unfold Fs.mkdir_exist_ok, Fs.mkdir, Fs.isdir. now rewrite Hl.
Qed.

End MakedirsFacts.

Section InitFacts.
Context (E : Externals).

(** How a successful [__init__] got there. *)
Lemma init_ok_steps w clApp w0 :
  ClientApp.__init__ E w = (Ok clApp, w0) ->
  exists fs1,
    Fs.makedirs (fs w) (the_output_dir E) = Ok fs1
    /\ Fs.makedirs fs1 (the_data_dir E) = Ok (fs w0).
Proof.
  unfold ClientApp.__init__. cbv zeta.
  fold (the_model_path E). fold (the_output_dir E).
  unfold bind at 1.
  pose proof (load_model_fs E (the_model_path E) w) as Hfs. unfold see_fs in Hfs.
  destruct (ClientApp._load_model E (the_model_path E) w) as [[m|e] w1];
    [|discriminate].
  cbn [snd] in Hfs.
  unfold ClientApp._ensure_directories, bind, updating, ret.
  cbn [ClientApp.output_dir ClientApp.base_dir]. fold (the_data_dir E).
  rewrite Hfs.
  destruct (Fs.makedirs (fs w) (the_output_dir E)) as [fs1|e1]; [|discriminate].
  cbn [fs].
  destruct (Fs.makedirs fs1 (the_data_dir E)) as [fs2|e2] eqn:H2; [|discriminate].
  intros [= <- <-]. exists fs1. split; [reflexivity | exact H2].
Qed.

End InitFacts.

(** After [ClientApp()] has returned, the output directory and the data
    directory exist as directories, every regular file that was there before
    is still there with its content and time, and every directory is still a
    directory (its listing and time may have changed); the weights file among
    the files. *)
Theorem init_builds_directories
    (E : Externals) (w : World) (clApp : ClientApp.t E) (w0 : World) :
  ClientApp.__init__ E w = (Ok clApp, w0) ->
  Fs.isdir (fs w0) (ClientApp.output_dir clApp) = true
  /\ Fs.isdir (fs w0) (OsPath.join (ClientApp.base_dir clApp) ["data"]) = true
  /\ (forall p content mtime,
        Fs.lookup (fs w) p = Some (Fs.File content mtime) ->
        Fs.lookup (fs w0) p = Some (Fs.File content mtime))
  /\ (forall p, Fs.isdir (fs w) p = true -> Fs.isdir (fs w0) p = true)
  /\ Fs.exists_ (fs w0) (ClientApp.model_path clApp) = true.
Proof.
  intros Hi.
  destruct (init_attributes E w clApp w0 Hi) as (Hb & _ & Ho & Hm).
  destruct (init_ok_steps E w clApp w0 Hi) as (fs1 & H1 & H2).
  rewrite Hb, Ho, Hm. fold (the_data_dir E).
  destruct (makedirs_grown _ _ _ H1) as [F1 D1].
  destruct (makedirs_grown _ _ _ H2) as [F2 D2].
  assert (Hout : Fs.isdir fs1 (the_output_dir E) = true).
  { apply (makedirs_isdir (fs w)); [| |exact H1];
      apply (join2_tail _ "detect"); (reflexivity || discriminate). }
  assert (Hdata : Fs.isdir (fs w0) (the_data_dir E) = true).
  { apply (makedirs_isdir fs1); [| |exact H2];
      apply (join2_tail _ "data"); (reflexivity || discriminate). }
  split; [now apply D2|]. split; [exact Hdata|].
  split; [intros p c m Hp; now apply F2, F1|].
  split; [intros p Hp; now apply D2, D1|].
  assert (Hx : Fs.exists_ (fs w) (the_model_path E) = true).
  { destruct (Fs.exists_ (fs w) (the_model_path E)) eqn:Hx; [reflexivity|].
    rewrite (init_missing E w Hx) in Hi. discriminate. }
  unfold Fs.exists_ in *.
  destruct (Fs.lookup (fs w) (the_model_path E)) as [[c m|es m]|] eqn:Hl;
    [|  |discriminate].
  - now rewrite (F2 _ _ _ (F1 _ _ _ Hl)).
  - assert (Hd : Fs.isdir (fs w0) (the_model_path E) = true).
    { apply D2, D1. unfold Fs.isdir. now rewrite Hl. }
    unfold Fs.isdir in Hd.
    destruct (Fs.lookup (fs w0) (the_model_path E)); [reflexivity|discriminate].
Qed.

Lemma init_builds_directories_witness :
  exists clApp w0,
    ClientApp.__init__ (Demo.externals (Demo.detect_fails 0)) Demo.installed
    = (Ok clApp, w0)
    /\ Fs.isdir (fs w0) "/app/yolov5/runs/detect" = true
    /\ Fs.isdir (fs w0) "/app/data" = true.
Proof.
  eexists. eexists. split; [vm_compute; reflexivity|].
  pose proof (init_builds_directories
                (Demo.externals (Demo.detect_fails 0)) Demo.installed _ _ eq_refl)
    as (H1 & H2 & _).
  split; [exact H1 | exact H2].
Defined.

(** When both directories are there already, [ClientApp()] leaves the file
    system as it found it, whether or not it succeeds. *)
Theorem init_keeps_ready_file_system (E : Externals) (w : World) :
  Fs.isdir (fs w) (the_output_dir E) = true ->
  Fs.isdir (fs w) (the_data_dir E) = true ->
  fs (final (ClientApp.__init__ E) w) = fs w.
Proof.
  intros Ho Hd. unfold final, ClientApp.__init__. cbv zeta.
  fold (the_model_path E). fold (the_output_dir E).
  unfold bind at 1.
  pose proof (load_model_fs E (the_model_path E) w) as Hfs. unfold see_fs in Hfs.
  destruct (ClientApp._load_model E (the_model_path E) w) as [[m|e] w1];
    cbn [snd] in *; [|exact Hfs].
  unfold ClientApp._ensure_directories, bind, updating, ret.
  cbn [ClientApp.output_dir ClientApp.base_dir]. fold (the_data_dir E).
  rewrite Hfs, (makedirs_existing _ _ Ho). cbn [fs].
  rewrite (makedirs_existing _ _ Hd). reflexivity.
Qed.

Lemma init_keeps_ready_file_system_witness :
  let E := Demo.externals (Demo.detect_fails 0) in
  let built := final (ClientApp.__init__ E) Demo.installed in
  fs (final (ClientApp.__init__ E) built) = fs built.
Proof.
  cbv zeta.
  apply init_keeps_ready_file_system; vm_compute; reflexivity.
Defined.

(** With no weights file, [ClientApp()] raises [FileNotFoundError] naming
    the path before it does anything else: no load is attempted and no
    directory is created. *)
Theorem init_without_weights_does_nothing (E : Externals) (w : World) :
  Fs.exists_ (fs w) (the_model_path E) = false ->
  ClientApp.__init__ E w
  = (Raise (mkExn FileNotFoundError
              ("Model file not found: "
               ++ OsPath.join (dirname_file E) ["yolov5"; "my_model.pt"])), w).
Proof. intros H. exact (init_missing E w H). Qed.

Lemma init_without_weights_does_nothing_witness :
  final (ClientApp.__init__ (Demo.externals (Demo.detect_fails 0))) Demo.no_weights
  = Demo.no_weights.
Proof.
  unfold final.
  rewrite (init_without_weights_does_nothing
             (Demo.externals (Demo.detect_fails 0)) Demo.no_weights eq_refl).
  reflexivity.
Defined.

(** A regular file in the place of the output directory (its parent being
    there) makes [ClientApp()] fail with a [FileExistsError], and only after
    the loading block has been run: the load is attempted, what it gave is
    dropped, and the file system is unchanged. *)
Theorem init_blocked_by_file
    (E : Externals) (w : World) (content : list byte) (mtime : Z) :
  Fs.exists_ (fs w) (the_model_path E) = true ->
  Fs.lookup (fs w) (the_output_dir E) = Some (Fs.File content mtime) ->
  Fs.exists_ (fs w) (fst (OsPath.split (the_output_dir E))) = true ->
  exists e w',
    ClientApp.__init__ E w = (Raise e, w')
    /\ kind e = FileExistsError
    /\ fs w' = fs w
    /\ load_attempts (trace w') = S (load_attempts (trace w)).
Proof.
  intros Hx Hl Hparent. unfold ClientApp.__init__. cbv zeta.
  fold (the_model_path E). fold (the_output_dir E).
  unfold bind at 1.
  pose proof (load_model_fs E (the_model_path E) w) as Hfs. unfold see_fs in Hfs.
  pose proof (load_model_attempts E (the_model_path E) w Hx) as Hld.
  unfold see_attempts in Hld.
  destruct (ClientApp._load_model E (the_model_path E) w) as [[m|e] w1] eqn:Hlm.
  - cbn [snd] in *. exists (Fs.EEXIST (the_output_dir E)), w1.
    unfold ClientApp._ensure_directories, bind, updating.
    cbn [ClientApp.output_dir]. rewrite Hfs.
    rewrite (makedirs_blocked (fs w) (the_output_dir E) content mtime Hl);
      [|apply (join2_tail _ "detect"); (reflexivity || discriminate)
       |exact Hparent].
    split; [reflexivity|]. split; [reflexivity|].
    split; [reflexivity || exact Hfs | exact Hld].
  - exfalso. revert Hlm. unfold ClientApp._load_model, bind, reading.
    rewrite Hx. cbn [negb].
    unfold try_except, bind, emit, reading, ret, print. cbn [fs].
    destruct (load_block E (fs w) (the_model_path E)); discriminate.
Qed.

Lemma init_blocked_by_file_witness :
  exists e w',
    ClientApp.__init__ (Demo.externals (Demo.detect_fails 0)) Demo2.blocked
    = (Raise e, w')
    /\ kind e = FileExistsError
    /\ fs w' = fs Demo2.blocked
    /\ load_attempts (trace w') = 1%nat.
Proof.
  exact (init_blocked_by_file (Demo.externals (Demo.detect_fails 0))
           Demo2.blocked [] 2 eq_refl eq_refl eq_refl).
Defined.

(** ** [/predict]: validation and failures before detection *)

Section TrySteps.
Context (E : Externals).

Lemma predictRoute_try_unreadable (clApp : ClientApp.t E) request w e :
  is_json request = true ->
  match request_json request with
  | Ok j => get j "image"
  | Raise e => Raise e
  end = Raise e ->
  predictRoute_try E clApp request w = (Raise e, w).
Proof.
  intros Hj Hg. unfold predictRoute_try. rewrite Hj. cbn [negb].
  unfold bind at 1. now rewrite Hg.
Qed.

Lemma predictRoute_try_store_failure (clApp : ClientApp.t E) request w image e w1 :
  is_json request = true ->
  match request_json request with
  | Ok j => get j "image"
  | Raise e => Raise e
  end = Ok image ->
  truthy image = true ->
  decodeImage E image (ClientApp.filename clApp) w = (Raise e, w1) ->
  predictRoute_try E clApp request w = (Raise e, w1)
  /\ see_commands w1 = see_commands w.
Proof.
  intros Hj Hg Ht Hd. split.
  - unfold predictRoute_try. rewrite Hj. cbn [negb].
    unfold bind at 1. rewrite Hg, Ht. cbn [negb].
    unfold bind at 1. now rewrite Hd.
  - pose proof (decode_keeps E _ see_commands image (ClientApp.filename clApp)
                  commands_trace_only w) as K.
    rewrite Hd in K. exact K.
Qed.

(** What the [try] block and its handler leave in the list of commands when
    the block itself added none. *)
Lemma predictRoute_no_command request w (clApp : ClientApp.t E) w0 r w1 :
  ClientApp.__init__ E w = (Ok clApp, w0) ->
  predictRoute_try E clApp request w0 = (r, w1) ->
  see_commands w1 = see_commands w0 ->
  see_commands (final (predictRoute E request) w) = see_commands w.
Proof.
  intros Hi Htry Hc.
  pose proof (init_commands E w) as K0. rewrite Hi in K0. cbn [snd] in K0.
  unfold final. rewrite (predictRoute_after_init E request w clApp w0 Hi).
  unfold try_except. rewrite Htry. destruct r as [r|e].
  - cbn [snd]. now rewrite Hc.
  - rewrite (handler_keeps _ see_commands e commands_deaf w1). now rewrite Hc.
Qed.

End TrySteps.

(** With the [ClientApp] built, a request that does not announce JSON is
    answered 400 "Request must be JSON", and one whose image is missing or
    falsy (null, "", 0, false, an empty list or object) is answered 400
    "No image provided"; in both cases nothing has been written and the
    detector has not been started: the world is the one construction left. *)
Theorem predictRoute_validation
    (E : Externals) (request : Request) (w : World)
    (clApp : ClientApp.t E) (w0 : World) :
  ClientApp.__init__ E w = (Ok clApp, w0) ->
  (is_json request = false ->
   predictRoute E request w
   = (Ok (with_status (jsonify "error" "Request must be JSON") 400), w0))
  /\ (forall image,
        is_json request = true ->
        match request_json request with
        | Ok j => get j "image"
        | Raise e => Raise e
        end = Ok image ->
        truthy image = false ->
        predictRoute E request w
        = (Ok (with_status (jsonify "error" "No image provided") 400), w0)).
Proof.
  intros Hi. rewrite (predictRoute_after_init E request w clApp w0 Hi).
  split.
  - intros Hj. apply run_try_ok. now apply predictRoute_try_not_json.
  - intros image Hj Hg Ht. apply run_try_ok.
    now apply (predictRoute_try_no_image E clApp request w0 image).
Qed.

Lemma predictRoute_validation_witness :
  outcome (predictRoute (Demo.externals (Demo.detect_fails 0))
             (mkRequest true (Some (JObj [("image", JStr "")])))) Demo.installed
  = Ok (with_status (jsonify "error" "No image provided") 400).
Proof.
  unfold outcome.
  rewrite (proj2 (predictRoute_validation
                    (Demo.externals (Demo.detect_fails 0))
                    (mkRequest true (Some (JObj [("image", JStr "")])))
                    Demo.installed _ _ eq_refl)
             (JStr "") eq_refl eq_refl eq_refl).
  reflexivity.
Defined.

(** A body that announces JSON but does not parse, or parses to something
    that is not an object, is not a validation failure for the code: the
    exception is caught by the general handler, printed, and answered with
    status 500 and the exception's text. *)
Theorem predictRoute_unreadable_body_is_500
    (E : Externals) (request : Request) (w : World)
    (clApp : ClientApp.t E) (w0 : World) (e : exn) :
  ClientApp.__init__ E w = (Ok clApp, w0) ->
  is_json request = true ->
  match request_json request with
  | Ok j => get j "image"
  | Raise e => Raise e
  end = Raise e ->
  predictRoute E request w
  = (Ok (with_status (jsonify "error" (str e)) 500),
     mkWorld (fs w0) (trace w0 ++ [Print (str e)])).
Proof.
  intros Hi Hj Hg. rewrite (predictRoute_after_init E request w clApp w0 Hi).
  now rewrite (run_try_raise _ _ _ _ _
                 (predictRoute_try_unreadable E clApp request w0 e Hj Hg)).
Qed.

Lemma predictRoute_unreadable_body_is_500_witness :
  outcome (predictRoute (Demo.externals (Demo.detect_fails 0))
             (mkRequest true (Some (JArr [JStr "/9j/4AAQ"])))) Demo.installed
  = Ok (with_status (jsonify "error" "object has no attribute 'get'") 500)
  /\ outcome (predictRoute (Demo.externals (Demo.detect_fails 0))
                (mkRequest true None)) Demo.installed
     = Ok (with_status
             (jsonify "error" "400 Bad Request: Failed to decode JSON object") 500).
Proof.
  unfold outcome. split.
  - rewrite (predictRoute_unreadable_body_is_500
               (Demo.externals (Demo.detect_fails 0))
               (mkRequest true (Some (JArr [JStr "/9j/4AAQ"]))) Demo.installed
               _ _ _ eq_refl eq_refl eq_refl).
    reflexivity.
  - rewrite (predictRoute_unreadable_body_is_500
               (Demo.externals (Demo.detect_fails 0))
               (mkRequest true None) Demo.installed
               _ _ _ eq_refl eq_refl eq_refl).
    reflexivity.
Defined.

(** When storing the input image raises, the detector is not started: the
    exception is printed and answered with status 500 and its text. *)
Theorem predictRoute_store_failure_skips_detection
    (E : Externals) (request : Request) (w : World)
    (clApp : ClientApp.t E) (w0 : World) (image : json) (e : exn) (w1 : World) :
  ClientApp.__init__ E w = (Ok clApp, w0) ->
  is_json request = true ->
  match request_json request with
  | Ok j => get j "image"
  | Raise e => Raise e
  end = Ok image ->
  truthy image = true ->
  decodeImage E image (ClientApp.filename clApp) w0 = (Raise e, w1) ->
  predictRoute E request w
  = (Ok (with_status (jsonify "error" (str e)) 500),
     mkWorld (fs w1) (trace w1 ++ [Print (str e)]))
  /\ commands (trace (final (predictRoute E request) w)) = commands (trace w).
Proof.
  intros Hi Hj Hg Ht Hd.
  destruct (predictRoute_try_store_failure E clApp request w0 image e w1
              Hj Hg Ht Hd) as [Htry Hc].
  split.
  - rewrite (predictRoute_after_init E request w clApp w0 Hi).
    now rewrite (run_try_raise _ _ _ _ _ Htry).
  - exact (predictRoute_no_command E request w clApp w0 _ w1 Hi Htry Hc).
Qed.

Lemma predictRoute_store_failure_skips_detection_witness :
  outcome (predictRoute (Demo.externals (Demo.detect_fails 0))
             (Demo.post "@@")) Demo.installed
  = Ok (with_status (jsonify "error" "Incorrect padding") 500)
  /\ commands (trace (final (predictRoute (Demo.externals (Demo.detect_fails 0))
                               (Demo.post "@@")) Demo.installed)) = [].
Proof.
  destruct (predictRoute_store_failure_skips_detection
              (Demo.externals (Demo.detect_fails 0)) (Demo.post "@@")
              Demo.installed _ _ (JStr "@@") _ _
              eq_refl eq_refl eq_refl eq_refl eq_refl) as [Hrun Hc].
  split; [unfold outcome; rewrite Hrun; reflexivity | exact Hc].
Defined.

(** ** [/predict]: after detection *)

Section AfterDetection.
Context (E : Externals).

(** What the last part of [/predict] answers depends on the file system
    alone. *)
Lemma latest_reads_fs_only (clApp : ClientApp.t E) w w' :
  fs w = fs w' ->
  outcome (try_except (predictRoute_latest E clApp) predictRoute_except) w
  = outcome (try_except (predictRoute_latest E clApp) predictRoute_except) w'.
Proof.
  destruct w as [files t], w' as [files' t']. cbn [fs]. intros <-.
  unfold outcome, try_except, predictRoute_latest, bind, reading, ret,
    predictRoute_except, print, emit, encodeImageIntoBase64, bind, reading, ret.
  cbn [fs].
  destruct (exp_folders files (ClientApp.output_dir clApp)) as [[|f fr]|e];
    try reflexivity.
  cbn [fs].
  destruct (latest_exp_folder files (ClientApp.output_dir clApp) (f :: fr))
    as [d|e]; [|reflexivity].
  cbn [fs].
  destruct (Fs.exists_ files _); [|reflexivity]. cbn [negb fs].
  destruct (Fs.read files _); reflexivity.
Qed.

End AfterDetection.

(** The success path of [/predict]: with the image stored and the detector
    run, if the latest run directory holds a readable [image0.jpg] and the
    encoder returns a text for it, the answer is [{"image": text}] with
    status 200, and nothing is printed. *)
Theorem predictRoute_serves_latest_image
    (E : Externals) (request : Request) (w : World)
    (clApp : ClientApp.t E) (w0 : World) (image : json) (w1 : World)
    (folders : list string) (d : string) (picture : list byte)
    (text : string) (w2 : World) :
  ClientApp.__init__ E w = (Ok clApp, w0) ->
  is_json request = true ->
  match request_json request with
  | Ok j => get j "image"
  | Raise e => Raise e
  end = Ok image ->
  truthy image = true ->
  decodeImage E image (ClientApp.filename clApp) w0 = (Ok tt, w1) ->
  let ran :=
    final (ClientApp.run_yolo_detection E clApp
             (OsPath.join (dirname_file E) ["data"; ClientApp.filename clApp])) w1 in
  let out := ClientApp.output_dir clApp in
  exp_folders (fs ran) out = Ok folders ->
  folders <> [] ->
  latest_exp_folder (fs ran) out folders = Ok d ->
  Fs.read (fs ran) (OsPath.join out [d; "image0.jpg"]) = Ok picture ->
  encodeImageIntoBase64 (OsPath.join out [d; "image0.jpg"]) ran = (Ok text, w2) ->
  predictRoute E request w = (Ok (jsonify "image" text), w2).
Proof.
  intros Hi Hj Hg Ht Hd ran out He Hne Hl Hr Henc.
  rewrite (predictRoute_resolves E request w clApp w0 image w1 Hi Hj Hg Ht Hd).
  fold ran. apply run_try_ok.
  unfold predictRoute_latest. fold out.
  unfold bind at 1. unfold reading at 1. rewrite He.
  destruct folders as [|f fr]; [congruence|].
  unfold bind at 1. unfold reading at 1. rewrite Hl.
  unfold bind at 1. unfold reading at 1.
  assert (Hx : Fs.exists_ (fs ran) (OsPath.join out [d; "image0.jpg"]) = true).
  { unfold Fs.exists_. unfold Fs.read in Hr.
    destruct (Fs.lookup (fs ran) _); [reflexivity | discriminate]. }
  rewrite Hx. cbn [negb].
  unfold bind at 1. unfold reading at 1. rewrite Hr.
  unfold bind at 1. rewrite Henc. reflexivity.
Qed.

Lemma predictRoute_serves_latest_image_witness :
  outcome (predictRoute (Demo.externals (Demo.detect_into "exp" Demo.annotated))
             (Demo.post "/9j/4AAQ")) Demo.installed
  = Ok (jsonify "image" "/9j/4So=").
Proof.
  unfold outcome.
  erewrite (predictRoute_serves_latest_image
              (Demo.externals (Demo.detect_into "exp" Demo.annotated))
              (Demo.post "/9j/4AAQ") Demo.installed
              _ _ (JStr "/9j/4AAQ") _ ["exp"] "exp" Demo.annotated "/9j/4So=" _
              eq_refl eq_refl eq_refl eq_refl eq_refl eq_refl
              ltac:(discriminate) eq_refl eq_refl eq_refl).
  reflexivity.
Defined.

(** The detector's exit status never enters the answer of [/predict]: once
    the image is stored, the answer is what the last part of the route makes
    of the file system that the command leaves behind. *)
Theorem predictRoute_answer_ignores_status
    (E : Externals) (request : Request) (w : World)
    (clApp : ClientApp.t E) (w0 : World) (image : json) (w1 : World) :
  ClientApp.__init__ E w = (Ok clApp, w0) ->
  is_json request = true ->
  match request_json request with
  | Ok j => get j "image"
  | Raise e => Raise e
  end = Ok image ->
  truthy image = true ->
  decodeImage E image (ClientApp.filename clApp) w0 = (Ok tt, w1) ->
  outcome (predictRoute E request) w
  = outcome (try_except (predictRoute_latest E clApp) predictRoute_except)
      (mkWorld
         (snd (os_system E
                 (yolo_cmd_str E clApp
                    (OsPath.join (dirname_file E) ["data"; ClientApp.filename clApp]))
                 (fs w1)))
         []).
Proof.
  intros Hi Hj Hg Ht Hd. unfold outcome at 1.
  rewrite (predictRoute_resolves E request w clApp w0 image w1 Hi Hj Hg Ht Hd).
  apply latest_reads_fs_only.
  destruct (run_yolo_detection_runs E clApp
              (OsPath.join (dirname_file E) ["data"; ClientApp.filename clApp]) w1)
    as (w2 & Hrun & Hfs & _).
  unfold final. rewrite Hrun. exact Hfs.
Qed.

Lemma predictRoute_answer_ignores_status_witness :
  outcome (predictRoute (Demo.externals (Demo.detect_fails 256))
             (Demo.post "/9j/4AAQ")) Demo.with_stale_run
  = outcome (predictRoute (Demo.externals (Demo.detect_fails 0))
               (Demo.post "/9j/4AAQ")) Demo.with_stale_run.
Proof.
  rewrite (predictRoute_answer_ignores_status
             (Demo.externals (Demo.detect_fails 256)) (Demo.post "/9j/4AAQ")
             Demo.with_stale_run _ _ (JStr "/9j/4AAQ") _
             eq_refl eq_refl eq_refl eq_refl eq_refl).
  rewrite (predictRoute_answer_ignores_status
             (Demo.externals (Demo.detect_fails 0)) (Demo.post "/9j/4AAQ")
             Demo.with_stale_run _ _ (JStr "/9j/4AAQ") _
             eq_refl eq_refl eq_refl eq_refl eq_refl).
  reflexivity.
Defined.

(** An [image0.jpg] that exists but is a directory passes the existence
    check and fails at [open]: the answer is status 500 with the text of the
    [IsADirectoryError] that [open] raises, not "Predicted image not found". *)
Theorem predictRoute_image_is_a_directory
    (E : Externals) (request : Request) (w : World)
    (clApp : ClientApp.t E) (w0 : World) (image : json) (w1 : World)
    (folders : list string) (d : string) (entries : list string) (mtime : Z) :
  ClientApp.__init__ E w = (Ok clApp, w0) ->
  is_json request = true ->
  match request_json request with
  | Ok j => get j "image"
  | Raise e => Raise e
  end = Ok image ->
  truthy image = true ->
  decodeImage E image (ClientApp.filename clApp) w0 = (Ok tt, w1) ->
  let ran :=
    final (ClientApp.run_yolo_detection E clApp
             (OsPath.join (dirname_file E) ["data"; ClientApp.filename clApp])) w1 in
  let out := ClientApp.output_dir clApp in
  exp_folders (fs ran) out = Ok folders ->
  folders <> [] ->
  latest_exp_folder (fs ran) out folders = Ok d ->
  Fs.lookup (fs ran) (OsPath.join out [d; "image0.jpg"])
  = Some (Fs.Dir entries mtime) ->
  exists e,
    Fs.read (fs ran) (OsPath.join out [d; "image0.jpg"]) = Raise e
    /\ kind e = IsADirectoryError
    /\ outcome (predictRoute E request) w
       = Ok (with_status (jsonify "error" (str e)) 500).
Proof.
  intros Hi Hj Hg Ht Hd ran out He Hne Hl Hlook.
  exists (Fs.EISDIR (OsPath.join out [d; "image0.jpg"])).
  split; [unfold Fs.read; now rewrite Hlook|]. split; [reflexivity|].
  unfold outcome.
  rewrite (predictRoute_resolves E request w clApp w0 image w1 Hi Hj Hg Ht Hd).
  fold ran.
  unfold try_except, predictRoute_latest. fold out.
  unfold bind at 1. unfold reading at 1. rewrite He.
  destruct folders as [|f fr]; [congruence|].
  unfold bind at 1. unfold reading at 1. rewrite Hl.
  unfold bind at 1. unfold reading at 1.
  unfold Fs.exists_. rewrite Hlook. cbn [negb].
  unfold bind at 1. unfold reading at 1. unfold Fs.read. rewrite Hlook.
  reflexivity.
Qed.

Lemma predictRoute_image_is_a_directory_witness :
  exists e,
    Fs.read
      (fs (final (ClientApp.run_yolo_detection
                    (Demo.externals (Demo.detect_fails 0))
                    (Demo.app (Demo.detect_fails 0)) "/app/data/inputImage.jpg")
             (final (bind (ClientApp.__init__ (Demo.externals (Demo.detect_fails 0)))
                       (fun clApp =>
                          decodeImage (Demo.externals (Demo.detect_fails 0))
                            (JStr "/9j/4AAQ") "inputImage.jpg"))
                Demo2.odd_run)))
      "/app/yolov5/runs/detect/exp/image0.jpg" = Raise e
    /\ kind e = IsADirectoryError
    /\ outcome (predictRoute (Demo.externals (Demo.detect_fails 0))
                  (Demo.post "/9j/4AAQ")) Demo2.odd_run
       = Ok (with_status (jsonify "error" (str e)) 500).
Proof.
  exact (predictRoute_image_is_a_directory
           (Demo.externals (Demo.detect_fails 0)) (Demo.post "/9j/4AAQ")
           Demo2.odd_run _ _ (JStr "/9j/4AAQ") _ ["exp"] "exp" [] 5
           eq_refl eq_refl eq_refl eq_refl eq_refl eq_refl
           ltac:(discriminate) eq_refl eq_refl).
Defined.

(** ** [/predict]: what every call does *)

Section Answers.

Lemma answers_ret r : is_answer r -> answers (ret r).
Proof. intros H w. exact H. Qed.

Lemma answers_bind A (m : M A) k :
  (forall a, answers (k a)) -> answers (bind m k).
Proof.
  intros Hk w. unfold bind. destruct (m w) as [[a|e] w']; [apply Hk | exact I].
Qed.

Lemma is_answer_image text : is_answer (jsonify "image" text).
Proof. left. now exists text. Qed.

Lemma is_answer_400 message : is_answer (with_status (jsonify "error" message) 400).
Proof. right. left. now exists message. Qed.

Lemma is_answer_500 message : is_answer (with_status (jsonify "error" message) 500).
Proof. right. right. now exists message. Qed.

Lemma predictRoute_try_answers (E : Externals) (clApp : ClientApp.t E) request :
  answers (predictRoute_try E clApp request).
Proof.
  unfold predictRoute_try.
  destruct (negb (is_json request)); [apply answers_ret, is_answer_400|].
  apply answers_bind. intros image.
  destruct (negb (truthy image)); [apply answers_ret, is_answer_400|].
  apply answers_bind. intros _. apply answers_bind. intros _.
  unfold predictRoute_latest.
  apply answers_bind. intros [|f fr]; [apply answers_ret, is_answer_500|].
  apply answers_bind. intros d. apply answers_bind. intros found.
  destruct (negb found); [apply answers_ret, is_answer_500|].
  apply answers_bind. intros _. apply answers_bind. intros text.
  apply answers_ret, is_answer_image.
Qed.

End Answers.

(** Once the [ClientApp] is built, [/predict] always returns, and what it
    returns is [{"image": ...}] with status 200 or [{"error": ...}] with
    status 400 or 500: no exception escapes the [try] block. *)
Theorem predictRoute_always_answers
    (E : Externals) (request : Request) (w : World)
    (clApp : ClientApp.t E) (w0 : World) :
  ClientApp.__init__ E w = (Ok clApp, w0) ->
  exists r w', predictRoute E request w = (Ok r, w') /\ is_answer r.
Proof.
  intros Hi. rewrite (predictRoute_after_init E request w clApp w0 Hi).
  unfold try_except.
  pose proof (predictRoute_try_answers E clApp request w0) as H.
  destruct (predictRoute_try E clApp request w0) as [[r|e] w1].
  - exists r, w1. split; [reflexivity | exact H].
  - eexists. eexists. split; [reflexivity|]. apply is_answer_500.
Qed.

Lemma predictRoute_always_answers_witness :
  exists r w',
    predictRoute (Demo.externals (Demo.detect_fails 256))
      (mkRequest true (Some (JNum 7))) Demo.installed = (Ok r, w')
    /\ is_answer r.
Proof.
  exact (predictRoute_always_answers (Demo.externals (Demo.detect_fails 256))
           (mkRequest true (Some (JNum 7))) Demo.installed _ _ eq_refl).
Defined.

(** One call of [/predict] starts the detector at most once, and then on
    the fixed source path [<dir>/data/inputImage.jpg]. *)
Theorem predictRoute_detects_at_most_once
    (E : Externals) (request : Request) (w : World) :
  commands (trace (final (predictRoute E request) w)) = commands (trace w)
  \/ exists clApp : ClientApp.t E,
       commands (trace (final (predictRoute E request) w))
       = (commands (trace w)
            ++ [yolo_cmd_str E clApp
                  (OsPath.join (dirname_file E) ["data"; "inputImage.jpg"])])%list.
Proof.
  destruct (ClientApp.__init__ E w) as [[clApp|e] w0] eqn:Hi.
  - destruct (init_attributes E w clApp w0 Hi) as (_ & Hname & _ & _).
    destruct (is_json request) eqn:Hj.
    + destruct (match request_json request with
                | Ok j => get j "image"
                | Raise e => Raise e
                end) as [image|e] eqn:Hg.
      * destruct (truthy image) eqn:Ht.
        -- destruct (decodeImage E image (ClientApp.filename clApp) w0)
             as [[[]|e] w1] eqn:Hd.
           ++ right. exists clApp. rewrite <- Hname.
              exact (predictRoute_commands E request w clApp w0 image w1
                       Hi Hj Hg Ht Hd).
           ++ left.
              destruct (predictRoute_try_store_failure E clApp request w0
                          image e w1 Hj Hg Ht Hd) as [Htry Hc].
              exact (predictRoute_no_command E request w clApp w0 _ w1
                       Hi Htry Hc).
        -- left.
           exact (predictRoute_no_command E request w clApp w0 _ w0 Hi
                    (predictRoute_try_no_image E clApp request w0 image
                       Hj Hg Ht) eq_refl).
      * left.
        exact (predictRoute_no_command E request w clApp w0 _ w0 Hi
                 (predictRoute_try_unreadable E clApp request w0 e Hj Hg)
                 eq_refl).
    + left.
      exact (predictRoute_no_command E request w clApp w0 _ w0 Hi
               (predictRoute_try_not_json E clApp request w0 Hj) eq_refl).
  - left. unfold final, predictRoute. unfold bind at 1.
    pose proof (init_commands E w) as K0. rewrite Hi in *. exact K0.
Qed.

Lemma predictRoute_attempts_load_once_witness :
  see_attempts (final (predictRoute (Demo.externals (Demo.detect_fails 0))
                      Demo.not_json) Demo.installed) = 1%nat.
Proof.
  exact (predictRoute_attempts_load_once (Demo.externals (Demo.detect_fails 0))
           Demo.not_json Demo.installed eq_refl).
Defined.

(** ** [/live] *)

(** With the [ClientApp] built, [/live] starts the detector once on the
    source "0" and answers "Camera starting!!" with status 200, whatever
    status the detector returns. *)
Theorem predictLive_starts_camera
    (E : Externals) (w : World) (clApp : ClientApp.t E) (w0 : World) :
  ClientApp.__init__ E w = (Ok clApp, w0) ->
  outcome (predictLive E) w = Ok (mkResponse (Text "Camera starting!!") 200)
  /\ commands (trace (final (predictLive E) w))
     = (commands (trace w) ++ [yolo_cmd_str E clApp "0"])%list.
Proof.
  intros Hi.
  destruct (run_yolo_detection_runs E clApp "0" w0) as (w1 & Hrun & _ & Hc & _).
  assert (Hlive : predictLive E w = (Ok (mkResponse (Text "Camera starting!!") 200), w1)).
  { unfold predictLive. apply run_try_ok.
    unfold bind at 1. rewrite Hi. unfold bind at 1. now rewrite Hrun. }
  unfold outcome, final. rewrite Hlive. split; [reflexivity|].
  cbn [snd]. unfold see_commands in Hc. rewrite Hc. f_equal.
  pose proof (init_commands E w) as K0. rewrite Hi in K0. exact K0.
Qed.

Lemma predictLive_starts_camera_witness :
  outcome (predictLive (Demo.externals (Demo.detect_fails 256))) Demo.installed
  = Ok (mkResponse (Text "Camera starting!!") 200)
  /\ commands (trace (final (predictLive (Demo.externals (Demo.detect_fails 256)))
                        Demo.installed))
     = [ "python /app/yolov5/detect.py --weights /app/yolov5/my_model.pt --img 416 --conf 0.5 --source 0 --project /app/yolov5/runs/detect --name exp" ].
Proof.
  exact (predictLive_starts_camera (Demo.externals (Demo.detect_fails 256))
           Demo.installed (Demo.app (Demo.detect_fails 256)) _ eq_refl).
Defined.

(** No exception escapes [/live]: the [ClientApp] is built inside the [try]
    block, so even a missing weights file becomes an answer (status 500 with
    the exception's text). *)
Theorem predictLive_never_raises (E : Externals) (w : World) :
  (exists r w', predictLive E w = (Ok r, w'))
  /\ (Fs.exists_ (fs w) (the_model_path E) = false ->
      predictLive E w
      = (Ok (with_status
               (jsonify "error" ("Model file not found: " ++ the_model_path E)) 500),
         mkWorld (fs w)
           (trace w ++ [Print ("Model file not found: " ++ the_model_path E)]))).
Proof.
  split.
  - unfold predictLive, try_except.
    destruct (bind (ClientApp.__init__ E) _ w) as [[r|e] w1].
    + now eauto.
    + destruct (kind e); eexists; eexists; reflexivity.
  - intros Hx. unfold predictLive, try_except. unfold bind at 1.
    rewrite (init_missing E w Hx). reflexivity.
Qed.

Lemma predictLive_never_raises_witness :
  outcome (predictLive (Demo.externals (Demo.detect_fails 0))) Demo.no_weights
  = Ok (with_status
          (jsonify "error" "Model file not found: /app/yolov5/my_model.pt") 500).
Proof.
  unfold outcome.
  rewrite (proj2 (predictLive_never_raises
                    (Demo.externals (Demo.detect_fails 0)) Demo.no_weights)
             eq_refl).
  reflexivity.
Defined.

(** ** [get_local_ip] and [/train] *)

(** [get_local_ip] always returns an address: the one [getsockname] reports
    when creating, connecting, asking and closing the socket all succeed, and
    "127.0.0.1" as soon as one of the four raises (a failing [close]
    included, although the address is known by then). *)
Theorem get_local_ip_falls_back (C : Collaborators) (w : World) :
  exists ip w',
    get_local_ip C w = (Ok ip, w')
    /\ ((exists s w1 w2 port w3,
           socket_socket C w = (Ok s, w1)
           /\ connect C s "8.8.8.8" 80 w1 = (Ok tt, w2)
           /\ getsockname C s w2 = (Ok (ip, port), w3)
           /\ close C s w3 = (Ok tt, w'))
        \/ (ip = "127.0.0.1"
            /\ exists e, outcome
                 (s <- socket_socket C ;;
                  connect C s "8.8.8.8" 80 ;;
                  name <- getsockname C s ;;
                  close C s) w = Raise e)).
Proof.
  unfold get_local_ip, try_except, outcome, bind, ret.
  destruct (socket_socket C w) as [[s|e] w1] eqn:Hnew; cbn [fst];
    [|eexists; eexists; split; [reflexivity|right; split; [reflexivity|now eexists]]].
  destruct (connect C s "8.8.8.8" 80 w1) as [[[]|e] w2] eqn:Hconnect; cbn [fst];
    [|eexists; eexists; split; [reflexivity|right; split; [reflexivity|now eexists]]].
  destruct (getsockname C s w2) as [[[ip port]|e] w3] eqn:Hname; cbn [fst];
    [|eexists; eexists; split; [reflexivity|right; split; [reflexivity|now eexists]]].
  destruct (close C s w3) as [[[]|e] w4] eqn:Hclose; cbn [fst];
    [|eexists; eexists; split; [reflexivity|right; split; [reflexivity|now eexists]]].
  exists ip, w4. split; [reflexivity|]. left.
  exists s, w1, w2, port, w3.
  split; [reflexivity|]. split; [exact Hconnect|].
  split; [exact Hname | exact Hclose].
Qed.

Section TrainFacts.
Context (C : Collaborators).

Lemma get_local_ip_returns w : exists ip w', get_local_ip C w = (Ok ip, w').
Proof.
  unfold get_local_ip, try_except.
  destruct (bind (socket_socket C) _ w) as [[ip|e] w'];
    eexists; eexists; reflexivity.
Qed.

End TrainFacts.

(** [/train] always answers.  It answers 200 with the message "Training
    Successful!" and an address exactly when the pipeline was built and ran
    without raising (no socket failure can turn that into an error), and 500
    with the exception's text when building or running the pipeline raised;
    the pipeline is not run when building it raised. *)
Theorem trainRoute_answers (C : Collaborators) (w : World) :
  (exists obj w1 w2 ip w',
     TrainPipeline C w = (Ok obj, w1)
     /\ run_pipeline C obj w1 = (Ok tt, w2)
     /\ get_local_ip C w2 = (Ok ip, w')
     /\ trainRoute C w
        = (Ok (mkResponse
                 (Json (JObj [("message", JStr "Training Successful!");
                              ("ip", JStr ip)])) 200), w'))
  \/ (exists e w',
        (TrainPipeline C w = (Raise e, w')
         \/ exists obj w1,
              TrainPipeline C w = (Ok obj, w1)
              /\ run_pipeline C obj w1 = (Raise e, w'))
        /\ trainRoute C w
           = (Ok (with_status (jsonify "error" (str e)) 500), w')).
Proof.
  destruct (TrainPipeline C w) as [[obj|e] w1] eqn:Hnew.
  - destruct (run_pipeline C obj w1) as [[[]|e] w2] eqn:Hrun.
    + left. destruct (get_local_ip_returns C w2) as (ip & w' & Hip).
      exists obj, w1, w2, ip, w'.
      split; [reflexivity|]. split; [exact Hrun|]. split; [exact Hip|].
      unfold trainRoute. apply run_try_ok.
      unfold bind at 1. rewrite Hnew.
      unfold bind at 1. rewrite Hrun.
      unfold bind at 1. now rewrite Hip.
    + right. exists e, w2. split.
      * right. exists obj, w1. split; [reflexivity | exact Hrun].
      * unfold trainRoute, try_except.
        unfold bind at 1. rewrite Hnew.
        unfold bind at 1. now rewrite Hrun.
  - right. exists e, w1. split; [now left|].
    unfold trainRoute, try_except.
    unfold bind at 1. now rewrite Hnew.
Qed.
